(** * ZenB kernel: breathing-session state machine, inference model and
      safety guard

    A shallow embedding of the session kernel (class [ZenBKernel] with its
    two subsystems [ActiveInferenceModel] and [HippocraticGuard]) and of the
    static pattern catalog [BREATHING_PATTERNS]; of the settings store
    ([registerSessionComplete] with its date helpers and the hand-over of
    the trust registry), of the pattern lock of the footer, and of the parts
    of the engine hook that drive the kernel.

    Conventions of the embedding.
    - A JavaScript [number] is an exact rational ([Q]).  Comparisons of the
      source ([<], [>], [>=]) are the boolean tests [Qltb], [Qgtb], [Qgeb];
      [Math.max] and [Math.min] are [Qmax] and [Qmin].  Rounding, NaN and
      infinities of IEEE doubles are outside this model; where a property
      turns on rounding, [calculateEntropy] is also given on binary64
      ([Binary64]).
    - Objects keyed by strings ([Record<string, _>]) are [gmap string _],
      which holds their own properties.  The catalog is read through
      [get], which also answers for the members every object inherits
      from [Object.prototype].
    - A call that throws answers [None].  The only throw is the TypeError
      of a LOAD_PROTOCOL under an inherited name; the kernel it leaves
      behind holds that member in place of a pattern and is not followed.
    - The kernel object is the record [Kernel]: the private fields [state],
      [eventLog], [safetyRegistry], and the trace [notified] of the snapshots
      handed to subscribers by [notify].
    - The host ([Date.now()], [document.hidden]) is the record [Host], read
      once per external dispatch.
    - [dispatch] re-enters itself from [handleTick] and [transitionPhase];
      the open recursion is closed by [dispatchN] over a nesting budget, and
      a budget of two is shown to be enough for every event.
    - The settings store is the record [SettingsState]; its actions take
      the kernel they write to and return it.  What one call reads from
      the clock and from [Math.random] is the record [Env]. *)

From Stdlib Require Import QArith Qminmax Lqa ZArith Ascii.
From Stdlib Require PrimFloat.
From stdpp Require Import gmap strings pretty.

Open Scope Q_scope.

(** ** Numbers *)

Definition Qltb (x y : Q) : bool :=
  match x ?= y with Lt => true | _ => false end.
Definition Qgtb (x y : Q) : bool := Qltb y x.
Definition Qgeb (x y : Q) : bool := Qle_bool y x.

(** ** Types (types.ts) *)

Inductive BreathPhase := inhale | holdIn | exhale | holdOut.

Inductive PatternTier := Tier1 | Tier2 | Tier3.

Inductive ColorTheme := warm | cool | neutral.

Record BeliefState := {
  arousal : Q;
  attention : Q;
  rhythm_alignment : Q
}.

Inductive Interaction := pause | resume | touch.
Inductive Visibility := visible | hidden.

Record Observation := {
  timestamp : Z;
  user_interaction : option Interaction;
  visibilty_state : Visibility;
  delta_time : Q
}.

Inductive InterruptionKind := kind_pause | kind_background.

Inductive KernelEvent :=
| BOOT (ts : Z)
| LOAD_PROTOCOL (patternId : string) (ts : Z)
| START_SESSION (ts : Z)
| TICK (dt : Q) (ts : Z)
| PHASE_TRANSITION (from to : BreathPhase) (ts : Z)
| CYCLE_COMPLETE (count : Q) (ts : Z)
| USER_INTERRUPTION (kind : InterruptionKind) (ts : Z)
| RESUME_SESSION (ts : Z)
| HALT (reason : string) (ts : Z)
| SAFETY_INTERVENTION (riskLevel : Q) (action : string) (ts : Z).

Record TraumaRecord := {
  patternId : string;
  total_exposure_seconds : Q;
  adverse_events : Q;
  resonance_score : Q;
  last_updated : Z
}.

(** [Record<BreathPhase, number>] *)
Record Timings := {
  on_inhale : Q;
  on_holdIn : Q;
  on_exhale : Q;
  on_holdOut : Q
}.

(** [timings[phase]] *)
Definition timing_at (t : Timings) (p : BreathPhase) : Q :=
  match p with
  | inhale => on_inhale t
  | holdIn => on_holdIn t
  | exhale => on_exhale t
  | holdOut => on_holdOut t
  end.

Record BreathPattern := {
  id : string;
  label : string;
  tag : string;
  description : string;
  timings : Timings;
  colorTheme : ColorTheme;
  recommendedCycles : Q;
  tier : PatternTier
}.

Definition mkTimings (i hi e ho : Q) : Timings :=
  {| on_inhale := i; on_holdIn := hi; on_exhale := e; on_holdOut := ho |}.

Definition BREATHING_PATTERNS : gmap string BreathPattern :=
  list_to_map [
    ("4-7-8"%string,
     {| id := "4-7-8"; label := "Tranquility"; tag := "Sleep & Anxiety";
        description := "A natural tranquilizer for the nervous system.";
        timings := mkTimings 4 7 8 0;
        colorTheme := warm; recommendedCycles := 4; tier := Tier1 |});
    ("box"%string,
     {| id := "box"; label := "Focus"; tag := "Concentration";
        description := "Used by Navy SEALs to heighten performance.";
        timings := mkTimings 4 4 4 4;
        colorTheme := neutral; recommendedCycles := 6; tier := Tier1 |});
    ("calm"%string,
     {| id := "calm"; label := "Balance"; tag := "Coherence";
        description := "Restores balance to your heart rate variability.";
        timings := mkTimings 4 0 6 0;
        colorTheme := cool; recommendedCycles := 8; tier := Tier1 |});
    ("coherence"%string,
     {| id := "coherence"; label := "Coherence"; tag := "Heart Health";
        description := "Optimizes Heart Rate Variability (HRV). The 'Golden Ratio' of breathing.";
        timings := mkTimings 6 0 6 0;
        colorTheme := cool; recommendedCycles := 10; tier := Tier2 |});
    ("deep-relax"%string,
     {| id := "deep-relax"; label := "Deep Rest"; tag := "Stress Relief";
        description := "Doubling the exhalation to trigger the parasympathetic system.";
        timings := mkTimings 4 0 8 0;
        colorTheme := warm; recommendedCycles := 6; tier := Tier1 |});
    ("7-11"%string,
     {| id := "7-11"; label := "7-11"; tag := "Deep Calm";
        description := "A powerful technique for panic attacks and deep anxiety.";
        timings := mkTimings 7 0 11 0;
        colorTheme := warm; recommendedCycles := 4; tier := Tier2 |});
    ("awake"%string,
     {| id := "awake"; label := "Energize"; tag := "Wake Up";
        description := "Fast-paced rhythm to boost alertness and energy levels.";
        timings := mkTimings 4 0 2 0;
        colorTheme := cool; recommendedCycles := 15; tier := Tier2 |});
    ("triangle"%string,
     {| id := "triangle"; label := "Triangle"; tag := "Yoga";
        description := "A geometric pattern for emotional stability and control.";
        timings := mkTimings 4 4 4 0;
        colorTheme := neutral; recommendedCycles := 8; tier := Tier1 |});
    ("tactical"%string,
     {| id := "tactical"; label := "Tactical"; tag := "Advanced Focus";
        description := "Extended Box Breathing for high-stress situations.";
        timings := mkTimings 5 5 5 5;
        colorTheme := neutral; recommendedCycles := 5; tier := Tier2 |});
    ("buteyko"%string,
     {| id := "buteyko"; label := "Light Air"; tag := "Health";
        description := "Reduced breathing to improve oxygen uptake (Buteyko Method).";
        timings := mkTimings 3 0 3 4;
        colorTheme := cool; recommendedCycles := 12; tier := Tier3 |});
    ("wim-hof"%string,
     {| id := "wim-hof"; label := "Tummo Power"; tag := "Immunity";
        description := "Controlled hyperventilation phase. Charge your body with oxygen.";
        timings := mkTimings 2.5 0 1.5 0;
        colorTheme := warm; recommendedCycles := 30; tier := Tier3 |})
  ].

(** The description of [coherence] quotes Golden Ratio with double quotes
    in the source; they are single quotes here. *)

(** ** Property access on the catalog

    The catalog is an object literal, so [BREATHING_PATTERNS[key]] answers
    not only for its own keys: for the names of the members of
    [Object.prototype] it answers the inherited member, a function or, for
    [__proto__], the prototype itself.  Each of them is truthy and none
    has a property [timings]. *)
Definition Object_prototype : list string :=
  ["constructor"; "__defineGetter__"; "__defineSetter__"; "hasOwnProperty";
   "__lookupGetter__"; "__lookupSetter__"; "isPrototypeOf";
   "propertyIsEnumerable"; "toString"; "valueOf"; "__proto__";
   "toLocaleString"]%string.

Inductive Property (A : Type) :=
| own (a : A)
| inherited
| undefined.
Arguments own {A} a.
Arguments inherited {A}.
Arguments undefined {A}.

(** [obj[key]] *)
Definition get {A : Type} (obj : gmap string A) (key : string) : Property A :=
  match obj !! key with
  | Some a => own a
  | None => if bool_decide (key ∈ Object_prototype) then inherited else undefined
  end.

(** ** Runtime state (ZenBKernel.ts) *)

Inductive Status := IDLE | RUNNING | PAUSED | HALTED | SAFETY_LOCK.

Record RuntimeState := {
  status : Status;
  pattern : option BreathPattern;
  phase : BreathPhase;
  phaseElapsed : Q;
  phaseDuration : Q;
  cycleCount : Q;
  sessionDuration : Q;
  belief : BeliefState;
  entropy : Q
}.

Definition is_running (s : Status) : bool :=
  match s with RUNNING => true | _ => false end.
Definition is_paused (s : Status) : bool :=
  match s with PAUSED => true | _ => false end.

(** Field assignments [this.state.f = v]. *)
Definition set_status (v : Status) (s : RuntimeState) : RuntimeState :=
  {| status := v; pattern := pattern s; phase := phase s;
     phaseElapsed := phaseElapsed s; phaseDuration := phaseDuration s;
     cycleCount := cycleCount s; sessionDuration := sessionDuration s;
     belief := belief s; entropy := entropy s |}.
Definition set_pattern (v : option BreathPattern) (s : RuntimeState) : RuntimeState :=
  {| status := status s; pattern := v; phase := phase s;
     phaseElapsed := phaseElapsed s; phaseDuration := phaseDuration s;
     cycleCount := cycleCount s; sessionDuration := sessionDuration s;
     belief := belief s; entropy := entropy s |}.
Definition set_phase (v : BreathPhase) (s : RuntimeState) : RuntimeState :=
  {| status := status s; pattern := pattern s; phase := v;
     phaseElapsed := phaseElapsed s; phaseDuration := phaseDuration s;
     cycleCount := cycleCount s; sessionDuration := sessionDuration s;
     belief := belief s; entropy := entropy s |}.
Definition set_phaseElapsed (v : Q) (s : RuntimeState) : RuntimeState :=
  {| status := status s; pattern := pattern s; phase := phase s;
     phaseElapsed := v; phaseDuration := phaseDuration s;
     cycleCount := cycleCount s; sessionDuration := sessionDuration s;
     belief := belief s; entropy := entropy s |}.
Definition set_phaseDuration (v : Q) (s : RuntimeState) : RuntimeState :=
  {| status := status s; pattern := pattern s; phase := phase s;
     phaseElapsed := phaseElapsed s; phaseDuration := v;
     cycleCount := cycleCount s; sessionDuration := sessionDuration s;
     belief := belief s; entropy := entropy s |}.
Definition set_cycleCount (v : Q) (s : RuntimeState) : RuntimeState :=
  {| status := status s; pattern := pattern s; phase := phase s;
     phaseElapsed := phaseElapsed s; phaseDuration := phaseDuration s;
     cycleCount := v; sessionDuration := sessionDuration s;
     belief := belief s; entropy := entropy s |}.
Definition set_sessionDuration (v : Q) (s : RuntimeState) : RuntimeState :=
  {| status := status s; pattern := pattern s; phase := phase s;
     phaseElapsed := phaseElapsed s; phaseDuration := phaseDuration s;
     cycleCount := cycleCount s; sessionDuration := v;
     belief := belief s; entropy := entropy s |}.
Definition set_belief (v : BeliefState) (s : RuntimeState) : RuntimeState :=
  {| status := status s; pattern := pattern s; phase := phase s;
     phaseElapsed := phaseElapsed s; phaseDuration := phaseDuration s;
     cycleCount := cycleCount s; sessionDuration := sessionDuration s;
     belief := v; entropy := entropy s |}.
Definition set_entropy (v : Q) (s : RuntimeState) : RuntimeState :=
  {| status := status s; pattern := pattern s; phase := phase s;
     phaseElapsed := phaseElapsed s; phaseDuration := phaseDuration s;
     cycleCount := cycleCount s; sessionDuration := sessionDuration s;
     belief := belief s; entropy := v |}.

(** ** Subsystem: active inference model *)
Module ActiveInferenceModel.

Definition update (currentBelief : BeliefState) (observation : Observation)
    (isRunning : bool) : BeliefState :=
  let dt := delta_time observation in
  let a := arousal currentBelief in
  let t := attention currentBelief in
  let r := rhythm_alignment currentBelief in
  if negb isRunning then
    {| arousal := Qmax 0 (a - 0.1 * dt);
       attention := Qmax 0 (t - 0.2 * dt);
       rhythm_alignment := Qmax 0 (r - 0.1 * dt) |}
  else
    let isInterrupted :=
      match visibilty_state observation with hidden => true | visible => false end
      || match user_interaction observation with Some pause => true | _ => false end in
    if isInterrupted then
      {| arousal := Qmin 1.0 (a + 0.3 * dt);
         attention := Qmax 0.0 (t - 0.5 * dt);
         rhythm_alignment := Qmax 0.0 (r - 0.4 * dt) |}
    else
      {| arousal := Qmax 0.0 (a - 0.05 * dt);
         attention := Qmin 1.0 (t + 0.1 * dt);
         rhythm_alignment := Qmin 1.0 (r + 0.2 * dt) |}.

Definition calculateEntropy (b : BeliefState) : Q :=
  Qmin 1.0 (Qmax 0 (arousal b * (1.0 - rhythm_alignment b * 0.8))).

End ActiveInferenceModel.

(** ** The entropy on binary64

    A JavaScript [number] is an IEEE 754 binary64, and so is a primitive
    float of Rocq, with the same rounding to nearest, ties to even.  Where
    a property turns on rounding, [calculateEntropy] is taken on them. *)
Module Binary64.
Import PrimFloat.
#[local] Set Warnings "-inexact-float".
#[local] Open Scope float_scope.

Record BeliefState := {
  arousal : float;
  attention : float;
  rhythm_alignment : float
}.

(** [Math.max] and [Math.min] of two numbers: NaN if either is NaN, and of
    the two zeros the positive one is the greater. *)
Definition Math_max (x y : float) : float :=
  if is_nan x || is_nan y then nan
  else if x <? y then y
  else if y <? x then x
  else if get_sign x then y else x.

Definition Math_min (x y : float) : float :=
  if is_nan x || is_nan y then nan
  else if x <? y then x
  else if y <? x then y
  else if get_sign x then x else y.

Definition calculateEntropy (belief : BeliefState) : float :=
  Math_min 1.0 (Math_max 0 (arousal belief * (1.0 - (rhythm_alignment belief * 0.8)))).

End Binary64.

(** ** Subsystem: safety guard *)
Module HippocraticGuard.

Definition check (now : Z) (state : RuntimeState)
    (registry : gmap string TraumaRecord) : option KernelEvent :=
  match pattern state with
  | None => None
  | Some pat =>
    (* Guard 2: hyperventilation watchdog *)
    let watchdog :=
      if match tier pat with Tier2 => true | _ => false end
         && Qgtb (cycleCount state) 30
         && Qgtb (arousal (belief state)) 0.9
      then Some (SAFETY_INTERVENTION 0.8 "COOLDOWN_FORCED" now)
      else None in
    (* Guard 1: trauma resonance check *)
    match registry !! id pat with
    | Some record =>
        if Qltb (resonance_score record) 0.3 then
          if Qgtb (entropy state) 0.8
          then Some (SAFETY_INTERVENTION 0.9 "HALT_PREVENTATIVE" now)
          else watchdog
        else watchdog
    | None => watchdog
    end
  end.

End HippocraticGuard.

(** ** Phase machine (phaseMachine.ts) *)
Module PhaseMachine.

(** Modelled from the spec: the fixed cyclical order inhale, holdIn,
    exhale, holdOut, inhale of the phase machine (phaseMachine.ts, not
    among the sources). *)
Definition successor (p : BreathPhase) : BreathPhase :=
  match p with
  | inhale => holdIn
  | holdIn => exhale
  | exhale => holdOut
  | holdOut => inhale
  end.

(** Modelled from the spec: the skip loop of the phase machine, which
    passes over phases of duration zero, [skips] times at most. *)
Fixpoint skipZero (skips : nat) (p : BreathPhase) (t : Timings) : BreathPhase :=
  match skips with
  | O => p
  | S n => if Qeq_bool (timing_at t p) 0 then skipZero n (successor p) t else p
  end.

(** Modelled from the spec: [nextPhaseSkipZero] of phaseMachine.ts, which
    is imported by the kernel and is not among the sources.  The next phase
    in the cyclical order, skipping any phase whose configured duration is
    zero, the skip loop being bounded to at most three skips. *)
Definition nextPhaseSkipZero (current : BreathPhase) (pat : BreathPattern) : BreathPhase :=
  skipZero 3 (successor current) (timings pat).

(** Modelled from the spec: [isCycleBoundary] of phaseMachine.ts, not among
    the sources.  True exactly when the phase is inhale. *)
Definition isCycleBoundary (p : BreathPhase) : bool :=
  match p with inhale => true | _ => false end.

End PhaseMachine.

(** ** Kernel *)

(** What the host answers during one external dispatch. *)
Record Host := {
  now : Z;               (* Date.now() *)
  document_hidden : bool (* document.hidden *)
}.

Record Kernel := {
  state : RuntimeState;
  eventLog : list KernelEvent;
  safetyRegistry : gmap string TraumaRecord;
  notified : list RuntimeState
}.

Definition with_state (f : RuntimeState -> RuntimeState) (k : Kernel) : Kernel :=
  {| state := f (state k); eventLog := eventLog k;
     safetyRegistry := safetyRegistry k; notified := notified k |}.

Module ZenBKernel.
Import ActiveInferenceModel PhaseMachine.

Definition getInitialState : RuntimeState :=
  {| status := IDLE;
     pattern := None;
     phase := inhale;
     phaseElapsed := 0;
     phaseDuration := 0;
     cycleCount := 0;
     sessionDuration := 0;
     belief := {| arousal := 0.2; attention := 0.5; rhythm_alignment := 0.0 |};
     entropy := 0.2 |}.

Definition setSafetyRegistry (registry : gmap string TraumaRecord) (k : Kernel) : Kernel :=
  {| state := state k; eventLog := eventLog k;
     safetyRegistry := registry; notified := notified k |}.

Definition getState (k : Kernel) : RuntimeState := state k.

(** [this.eventLog.push(event)] *)
Definition log (e : KernelEvent) (k : Kernel) : Kernel :=
  {| state := state k; eventLog := eventLog k ++ [e];
     safetyRegistry := safetyRegistry k; notified := notified k |}.

(** [notify]: every subscriber receives a snapshot of the state. *)
Definition notify (k : Kernel) : Kernel :=
  {| state := state k; eventLog := eventLog k;
     safetyRegistry := safetyRegistry k; notified := notified k ++ [state k] |}.

(** The last statement of [reduce]. *)
Definition recalculateEntropy (s : RuntimeState) : RuntimeState :=
  set_entropy (calculateEntropy (belief s)) s.

Section Reducer.
(** The re-entrant [this.dispatch], and the host of the current dispatch. *)
Variable dispatch : KernelEvent -> Kernel -> option Kernel.
Variable host : Host.

Definition transitionPhase (k : Kernel) : option Kernel :=
  match pattern (state k) with
  | None => Some k
  | Some pat =>
    let currentP := phase (state k) in
    let nextP := nextPhaseSkipZero currentP pat in
    k1 ← dispatch (PHASE_TRANSITION currentP nextP (now host)) k;
    if isCycleBoundary nextP
    then dispatch (CYCLE_COMPLETE (cycleCount (state k1) + 1) (now host)) k1
    else Some k1
  end.

Definition handleTick (dt : Q) (k : Kernel) : option Kernel :=
  let obs :=
    {| timestamp := now host;
       delta_time := dt;
       visibilty_state := if document_hidden host then hidden else visible;
       user_interaction := if is_paused (status (state k)) then Some pause else None |} in
  let k1 :=
    with_state (fun s => set_belief (update (belief s) obs (is_running (status s))) s) k in
  if negb (is_running (status (state k1)))
     || match pattern (state k1) with None => true | Some _ => false end
  then Some k1
  else
    let k2 :=
      with_state (fun s => set_sessionDuration (sessionDuration s + dt)
                             (set_phaseElapsed (phaseElapsed s + dt) s)) k1 in
    k3 ← (if Qgeb (phaseElapsed (state k2)) (phaseDuration (state k2))
          then transitionPhase k2 else Some k2);
    match HippocraticGuard.check (now host) (state k3) (safetyRegistry k3) with
    | Some hazard => dispatch hazard k3
    | None => Some k3
    end.

Definition reduce (event : KernelEvent) (k : Kernel) : option Kernel :=
  match event with
  | LOAD_PROTOCOL patternId _ =>
      match get BREATHING_PATTERNS patternId with
      | undefined => Some k (* return: not even the entropy is touched *)
      | inherited =>
          (* [pattern] is truthy and [pattern.timings] is undefined: after
             the assignments to [state.pattern] and [state.phase], reading
             [pattern.timings.inhale] throws a TypeError *)
          None
      | own pat =>
          Some (with_state (fun s =>
            recalculateEntropy
              {| status := IDLE;
                 pattern := Some pat;
                 phase := inhale;
                 phaseElapsed := 0;
                 phaseDuration := on_inhale (timings pat);
                 cycleCount := 0;
                 sessionDuration := 0;
                 belief := {| arousal := arousal (belief s);
                              attention := attention (belief s);
                              rhythm_alignment := 0.0 |};
                 entropy := entropy s |}) k)
      end
  | START_SESSION _ =>
      Some (with_state (fun s =>
        recalculateEntropy
          match pattern s with
          | Some _ => set_status RUNNING s
          | None => s
          end) k)
  | USER_INTERRUPTION _ _ =>
      Some (with_state (fun s =>
        recalculateEntropy
          (if is_running (status s)
           then set_belief {| arousal := arousal (belief s);
                              attention := attention (belief s) * 0.8;
                              rhythm_alignment := rhythm_alignment (belief s) * 0.5 |}
                  (set_status PAUSED s)
           else s)) k)
  | RESUME_SESSION _ =>
      Some (with_state (fun s =>
        recalculateEntropy
          (if is_paused (status s) then set_status RUNNING s else s)) k)
  | HALT _ _ =>
      Some (with_state (fun s => recalculateEntropy (set_status IDLE s)) k)
  | SAFETY_INTERVENTION _ _ _ =>
      Some (with_state (fun s => recalculateEntropy (set_status SAFETY_LOCK s)) k)
  | PHASE_TRANSITION _ to _ =>
      Some (with_state (fun s =>
        recalculateEntropy
          (set_phaseDuration
             match pattern s with
             | Some pat => timing_at (timings pat) to
             | None => 0
             end
             (set_phaseElapsed 0 (set_phase to s)))) k)
  | CYCLE_COMPLETE count _ =>
      Some (with_state (fun s => recalculateEntropy (set_cycleCount count s)) k)
  | TICK dt _ =>
      k1 ← handleTick dt k;
      Some (with_state recalculateEntropy k1)
  | BOOT _ =>
      Some (with_state recalculateEntropy k)
  end.

(** The body of [dispatch]: log, reduce, notify. *)
Definition dispatch_body (event : KernelEvent) (k : Kernel) : option Kernel :=
  k1 ← reduce event (log event k);
  Some (notify k1).
End Reducer.

(** [dispatch] with at most [depth] nested activations; [None] when the
    nesting would go deeper, and when [reduce] throws. *)
Fixpoint dispatchN (depth : nat) (host : Host) (event : KernelEvent) (k : Kernel)
    : option Kernel :=
  match depth with
  | O => None
  | S d => dispatch_body (dispatchN d host) host event k
  end.

(** A tick nests one level: the events it raises are never ticks. *)
Definition dispatch : Host -> KernelEvent -> Kernel -> option Kernel := dispatchN 2.

Definition emit := dispatch.

(** The constructor: fresh fields, then [emit BOOT]. *)
Definition new (host : Host) : option Kernel :=
  emit host (BOOT (now host))
    {| state := getInitialState; eventLog := [];
       safetyRegistry := ∅; notified := [] |}.

(** What a client may do with the kernel. *)
Inductive Call :=
| Dispatch (host : Host) (event : KernelEvent)
| SetSafetyRegistry (registry : gmap string TraumaRecord).

Definition call (c : Call) (k : Kernel) : option Kernel :=
  match c with
  | Dispatch host event => dispatch host event k
  | SetSafetyRegistry registry => Some (setSafetyRegistry registry k)
  end.

Fixpoint run (cs : list Call) (k : Kernel) : option Kernel :=
  match cs with
  | [] => Some k
  | c :: cs' => k1 ← call c k; run cs' k1
  end.

(** Kernels that a program can hold: built by the constructor, then driven
    through the public methods, by calls that returned. *)
Inductive Reachable : Kernel -> Prop :=
| Reachable_new host k :
    new host = Some k -> Reachable k
| Reachable_call c k k' :
    Reachable k -> call c k = Some k' -> Reachable k'.

End ZenBKernel.

(** ** Settings store (settingsStore.ts) *)
Module SettingsStore.
Import ZenBKernel.

Inductive HapticStrength := light | medium | heavy.
Inductive QualityTier := quality_auto | quality_low | quality_medium | quality_high.
Inductive Language := en | vi.
Inductive SoundPack := musical | bells | breath | voice_en | voice_vi | voice_12.

Record UserSettings := {
  soundEnabled : bool;
  hapticEnabled : bool;
  hapticStrength : HapticStrength;
  theme : ColorTheme;
  quality : QualityTier;
  reduceMotion : bool;
  showTimer : bool;
  language : Language;
  soundPack : SoundPack;
  streak : Q;
  lastBreathDate : string;
  lastUsedPattern : string;
  traumaRegistry : gmap string TraumaRecord
}.

(** [SessionHistoryItem]; [finalBelief] is the belief the kernel held when
    the item was made. *)
Module SessionHistoryItem.
Record t := {
  id : string;
  timestamp : Z;
  durationSec : Q;
  patternId : string;
  cycles : Q;
  finalBelief : BeliefState
}.
End SessionHistoryItem.

Record SettingsState := {
  userSettings : UserSettings;
  history : list SessionHistoryItem.t;
  hasSeenOnboarding : bool
}.

(** The state the store is created with. *)
Definition initialState : SettingsState :=
  {| userSettings :=
       {| soundEnabled := true;
          hapticEnabled := true;
          hapticStrength := medium;
          theme := neutral;
          quality := quality_auto;
          reduceMotion := false;
          showTimer := true;
          language := en;
          soundPack := musical;
          streak := 0;
          lastBreathDate := "";
          lastUsedPattern := "4-7-8";
          traumaRegistry := ∅ |};
     history := [];
     hasSeenOnboarding := false |}.

(** What [new Date()] answers through its getters: [getFullYear],
    [getMonth] (from 0) and [getDate]. *)
Record LocalDate := {
  fullYear : Z;
  month : Z;
  date : Z
}.

(** [s.padStart(2, '0')] *)
Definition padStart2 (s : string) : string :=
  match String.length s with
  | O => "00" +:+ s
  | S O => "0" +:+ s
  | _ => s
  end.

(** The body shared by [getTodayString] and [getYesterdayString], on the
    date each of them has in hand. *)
Definition dateString (d : LocalDate) : string :=
  pretty (fullYear d) +:+ "-" +:+ padStart2 (pretty (month d + 1)%Z)
  +:+ "-" +:+ padStart2 (pretty (date d)).

(** What the host answers during one call of [registerSessionComplete]:
    [Date.now()] at each of its four reads (for a record that is created,
    for [last_updated], for the id and for the time stamp of the history
    item), the four digits cut out of [Math.random()], today's date and the
    date a day before it. *)
Record Env := {
  nowCreated : Z;
  nowUpdated : Z;
  nowId : Z;
  nowTimestamp : Z;
  randomDigits : string;
  today : LocalDate;
  yesterday : LocalDate
}.

Definition getTodayString (env : Env) : string := dateString (today env).
Definition getYesterdayString (env : Env) : string := dateString (yesterday env).

(** Field assignments [record.f = v] on a trauma record. *)
Definition set_total_exposure_seconds (v : Q) (r : TraumaRecord) : TraumaRecord :=
  {| patternId := patternId r; total_exposure_seconds := v;
     adverse_events := adverse_events r; resonance_score := resonance_score r;
     last_updated := last_updated r |}.
Definition set_adverse_events (v : Q) (r : TraumaRecord) : TraumaRecord :=
  {| patternId := patternId r; total_exposure_seconds := total_exposure_seconds r;
     adverse_events := v; resonance_score := resonance_score r;
     last_updated := last_updated r |}.
Definition set_resonance_score (v : Q) (r : TraumaRecord) : TraumaRecord :=
  {| patternId := patternId r; total_exposure_seconds := total_exposure_seconds r;
     adverse_events := adverse_events r; resonance_score := v;
     last_updated := last_updated r |}.
Definition set_last_updated (v : Z) (r : TraumaRecord) : TraumaRecord :=
  {| patternId := patternId r; total_exposure_seconds := total_exposure_seconds r;
     adverse_events := adverse_events r; resonance_score := resonance_score r;
     last_updated := v |}.

Definition registerSessionComplete (env : Env) (durationSec : Q) (patternId : string)
    (cycles : Q) (state : SettingsState) (k : Kernel) : SettingsState * Kernel :=
  let kernelState := getState k in
  (* trauma registry update *)
  let isSuccess := Qgtb durationSec 45 && Qltb (entropy kernelState) 0.5 in
  let registry := traumaRegistry (userSettings state) in
  let record :=
    match registry !! patternId with
    | Some r => r
    | None =>
        {| patternId := patternId;
           total_exposure_seconds := 0;
           adverse_events := 0;
           resonance_score := 0.5;
           last_updated := nowCreated env |}
    end in
  let record :=
    set_total_exposure_seconds (total_exposure_seconds record + durationSec) record in
  let record := set_last_updated (nowUpdated env) record in
  let record :=
    if isSuccess then
      set_resonance_score (Qmin 1.0 (resonance_score record + 0.05)) record
    else
      set_resonance_score (Qmax 0.0 (resonance_score record - 0.1))
        (set_adverse_events (adverse_events record + 1) record) in
  let registry := <[patternId := record]> registry in
  (* push the registry to the kernel *)
  let k := setSafetyRegistry registry k in
  (* history and streak *)
  let newHistory :=
    if Qgtb durationSec 10 then
      let newItem :=
        {| SessionHistoryItem.id := pretty (nowId env) +:+ randomDigits env;
           SessionHistoryItem.timestamp := nowTimestamp env;
           SessionHistoryItem.durationSec := durationSec;
           SessionHistoryItem.patternId := patternId;
           SessionHistoryItem.cycles := cycles;
           SessionHistoryItem.finalBelief := belief kernelState |} in
      take 100 (newItem :: history state)
    else history state in
  let newStreak := streak (userSettings state) in
  let newLastDate := lastBreathDate (userSettings state) in
  let '(newStreak, newLastDate) :=
    if Qgtb durationSec 30 then
      let today := getTodayString env in
      let yesterday := getYesterdayString env in
      if String.eqb newLastDate today then (newStreak, newLastDate)
      else if String.eqb newLastDate yesterday then (newStreak + 1, today)
      else (1, today)
    else (newStreak, newLastDate) in
  ({| history := newHistory;
      userSettings :=
        {| soundEnabled := soundEnabled (userSettings state);
           hapticEnabled := hapticEnabled (userSettings state);
           hapticStrength := hapticStrength (userSettings state);
           theme := theme (userSettings state);
           quality := quality (userSettings state);
           reduceMotion := reduceMotion (userSettings state);
           showTimer := showTimer (userSettings state);
           language := language (userSettings state);
           soundPack := soundPack (userSettings state);
           streak := newStreak;
           lastBreathDate := newLastDate;
           lastUsedPattern := patternId;
           traumaRegistry := registry |};
      hasSeenOnboarding := hasSeenOnboarding state |},
   k).

(** [onRehydrateStorage]: the saved registry is handed to the kernel. *)
Definition onRehydrateStorage (state : option SettingsState) (k : Kernel) : Kernel :=
  match state with
  | Some s => setSafetyRegistry (traumaRegistry (userSettings s)) k
  | None => k
  end.

End SettingsStore.

(** ** Pattern lock of the footer (Footer.tsx) *)
Module Footer.

Definition isPatternLocked (history : list SettingsStore.SessionHistoryItem.t)
    (pattern : BreathPattern) : bool :=
  match tier pattern with
  | Tier1 => false
  | Tier2 => Nat.ltb (length history) 3
  | Tier3 => Nat.ltb (length history) 10
  end.

End Footer.

(** ** Engine bridge (useBreathEngine.ts)

    The parts of the hook that drive the kernel: the two command effects
    and the heartbeat loop.  The refs that only feed the display
    ([progressRef], [entropyRef], [prevPhaseRef]) never flow back into the
    kernel and are left out; [lastTimeRef] is threaded through [loop]. *)
Module BreathEngine.
Import ZenBKernel.

(** The effect on [isActive] and [currentPattern.id]: each dispatch reads
    the clock for its timestamp, so that starting a session asks the host
    twice ([host], then [host']).  When the load throws, the effect ends
    there and START_SESSION is not dispatched. *)
Definition sessionEffect (host host' : Host) (isActive : bool) (patternId : string)
    (k : Kernel) : option Kernel :=
  if isActive then
    k1 ← dispatch host (LOAD_PROTOCOL patternId (now host)) k;
    dispatch host' (START_SESSION (now host')) k1
  else
    dispatch host (HALT "cleanup" (now host)) k.

(** The effect on [isPaused] and [isActive]. *)
Definition pauseEffect (host : Host) (isActive isPaused : bool) (k : Kernel)
    : option Kernel :=
  if negb isActive then Some k
  else if isPaused then dispatch host (USER_INTERRUPTION kind_pause (now host)) k
  else dispatch host (RESUME_SESSION (now host)) k.

(** One frame of the heartbeat: [frame] is the time stamp the animation
    frame carries, in milliseconds.  The result is the new [lastTimeRef]
    and the kernel. *)
Definition loop (host : Host) (frame : Q) (lastTimeRef : Q) (k : Kernel)
    : option (Q * Kernel) :=
  let dt := (frame - lastTimeRef) / 1000 in
  let lastTimeRef := frame in
  if Qgtb dt 0 && Qltb dt 1.0 then
    k1 ← dispatch host (TICK dt (now host)) k;
    Some (lastTimeRef, k1)
  else Some (lastTimeRef, k).

End BreathEngine.

(** * Vocabulary of the properties *)

Import ActiveInferenceModel PhaseMachine ZenBKernel.

(** ** Numbers and beliefs *)

(** [clamp01 x] is [x] clamped to the interval from 0 to 1. *)
Definition clamp01 (x : Q) : Q := Qmin 1 (Qmax 0 x).

Definition unit_interval (x : Q) : Prop := 0 <= x /\ x <= 1.

(** The three components of a belief lie within the unit interval. *)
Definition belief_bounded (b : BeliefState) : Prop :=
  unit_interval (arousal b) /\ unit_interval (attention b)
  /\ unit_interval (rhythm_alignment b).

(** The same on binary64, and the floor of the entropy: 0.2 times the
    arousal. *)
Module Bounds64.
Import PrimFloat.
#[local] Set Warnings "-inexact-float".
#[local] Open Scope float_scope.

Definition unit_interval (x : float) : bool := (0 <=? x) && (x <=? 1).

Definition belief_bounded (b : Binary64.BeliefState) : bool :=
  unit_interval (Binary64.arousal b) && unit_interval (Binary64.attention b)
  && unit_interval (Binary64.rhythm_alignment b).


(** Full arousal, fully aligned. *)
Definition aligned : Binary64.BeliefState :=
  {| Binary64.arousal := 1; Binary64.attention := 0.5;
     Binary64.rhythm_alignment := 1 |}.

(** The double next below 0.2. *)
Definition below_a_fifth : float := 0.19999999999999996.

End Bounds64.



(** ** Guards *)

(** Guard A: the registry distrusts the active pattern and entropy is high. *)
Definition trust_halt (s : RuntimeState) (pat : BreathPattern)
    (registry : gmap string TraumaRecord) : Prop :=
  exists record, registry !! id pat = Some record
    /\ resonance_score record < 0.3 /\ 0.8 < entropy s.

(** Guard B: an intermediate pattern, many cycles, peaking arousal. *)
Definition hyperventilating (s : RuntimeState) (pat : BreathPattern) : Prop :=
  tier pat = Tier2 /\ 30 < cycleCount s /\ 0.9 < arousal (belief s).

(** ** Events *)

(** The one event whose reduction dispatches. *)
Definition is_tick (e : KernelEvent) : bool :=
  match e with TICK _ _ => true | _ => false end.

(** The one event whose reduction may return early. *)
Definition is_load (e : KernelEvent) : bool :=
  match e with LOAD_PROTOCOL _ _ => true | _ => false end.

(** The one event whose dispatch throws: a load under a name the catalog
    only inherits. *)
Definition throws (e : KernelEvent) : bool :=
  match e with
  | LOAD_PROTOCOL patternId _ =>
      match get BREATHING_PATTERNS patternId with
      | inherited => true
      | _ => false
      end
  | _ => false
  end.


(** What [transitionPhase] logs after the transition into [next]. *)
Definition cycle_events (next : BreathPhase) (count : Q) (now : Z) : list KernelEvent :=
  if isCycleBoundary next then [CYCLE_COMPLETE (count + 1) now] else [].

(** ** Entropy *)

(** The stored entropy is the one computed from the stored belief. *)
Definition entropy_current (s : RuntimeState) : Prop :=
  entropy s = calculateEntropy (belief s).

(** Every snapshot sent to subscribers had a current entropy. *)
Definition snapshots_current (k : Kernel) : Prop :=
  Forall entropy_current (notified k).

(** The equation of the data model, on one state. *)
Definition entropy_formula (s : RuntimeState) : Prop :=
  entropy s
  == clamp01 (arousal (belief s) * (1 - 0.8 * rhythm_alignment (belief s))).

(** ** Status and frame *)

(** START_SESSION starts from IDLE with a pattern loaded, and in every
    other case leaves the state as it was. *)
Definition start_only_from_idle : Prop :=
  forall (host : Host) (ts : Z) (k k' : Kernel),
    Reachable k -> dispatch host (START_SESSION ts) k = Some k' ->
    match status (state k), pattern (state k) with
    | IDLE, Some _ => status (state k') = RUNNING
    | _, _ => state k' = state k
    end.

(** From [k] to [k'] the status became [target] and the session data are
    kept; the entropy is the one of the kept belief. *)
Definition status_only (target : Status) (k k' : Kernel) : Prop :=
  status (state k') = target
  /\ pattern (state k') = pattern (state k)
  /\ phase (state k') = phase (state k)
  /\ phaseElapsed (state k') = phaseElapsed (state k)
  /\ phaseDuration (state k') = phaseDuration (state k)
  /\ cycleCount (state k') = cycleCount (state k)
  /\ sessionDuration (state k') = sessionDuration (state k)
  /\ belief (state k') = belief (state k)
  /\ entropy (state k') = calculateEntropy (belief (state k))
  /\ (entropy_current (state k) -> state k' = set_status target (state k)).

(** ** Cycle counts *)

(** [ascending c l]: starting from [c], each element of [l] is at least the
    one before it. *)
Fixpoint ascending (c : Q) (l : list Q) : Prop :=
  match l with
  | [] => True
  | x :: l' => c <= x /\ ascending x l'
  end.

(** Cycle counts of the snapshots sent since kernel [k0], followed by the
    count now in the state, ascend from the count [k0] had. *)
Definition counts_ascend_since (k0 k : Kernel) : Prop :=
  exists snaps,
    notified k = notified k0 ++ snaps
    /\ ascending (cycleCount (state k0))
         (map cycleCount snaps ++ [cycleCount (state k)]).

(** ** Sample data *)

(** A host whose document is visible. *)
Definition foreground (n : Z) : Host := {| now := n; document_hidden := false |}.

(** The kernel right after construction at time 0. *)
Definition fresh : Kernel :=
  {| state := recalculateEntropy getInitialState;
     eventLog := [BOOT 0];
     safetyRegistry := ∅;
     notified := [recalculateEntropy getInitialState] |}.

(** The catalog entries [box] (tier 1) and [coherence] (tier 2). *)
Definition box : BreathPattern :=
  {| id := "box"; label := "Focus"; tag := "Concentration";
     description := "Used by Navy SEALs to heighten performance.";
     timings := mkTimings 4 4 4 4;
     colorTheme := neutral; recommendedCycles := 6; tier := Tier1 |}.

Definition coherence : BreathPattern :=
  {| id := "coherence"; label := "Coherence"; tag := "Heart Health";
     description := "Optimizes Heart Rate Variability (HRV). The 'Golden Ratio' of breathing.";
     timings := mkTimings 6 0 6 0;
     colorTheme := cool; recommendedCycles := 10; tier := Tier2 |}.

(** A box session, loaded only; loaded and started; started and then
    paused by the user; started and run to the end of its third phase. *)
Definition loaded_box_session : list Call :=
  [Dispatch (foreground 1) (LOAD_PROTOCOL "box" 1)].

Definition running_box_session : list Call :=
  loaded_box_session ++ [Dispatch (foreground 2) (START_SESSION 2)].

Definition paused_box_session : list Call :=
  running_box_session ++ [Dispatch (foreground 3) (USER_INTERRUPTION kind_pause 3)].

Definition three_phases_session : list Call :=
  running_box_session
  ++ [Dispatch (foreground 3) (TICK 4 3); Dispatch (foreground 4) (TICK 4 4);
      Dispatch (foreground 5) (TICK 4 5)].

(** The kernels these sessions lead to from [fresh]. *)
Definition loaded_box : Kernel :=
  Eval vm_compute in default fresh (run loaded_box_session fresh).

Definition running_box : Kernel :=
  Eval vm_compute in default fresh (run running_box_session fresh).

Definition last_phase_box : Kernel :=
  Eval vm_compute in default fresh (run three_phases_session fresh).

(** A registry that distrusts [coherence], and a state in which both guards
    match. *)
Definition distrust : gmap string TraumaRecord :=
  {[ "coherence"%string :=
       {| patternId := "coherence"; total_exposure_seconds := 120;
          adverse_events := 4; resonance_score := 0.1; last_updated := 0 |} ]}.

Definition panicking : RuntimeState :=
  {| status := RUNNING; pattern := Some coherence; phase := exhale;
     phaseElapsed := 1; phaseDuration := 6; cycleCount := 31;
     sessionDuration := 373;
     belief := {| arousal := 0.95; attention := 0.1; rhythm_alignment := 0 |};
     entropy := 0.95 |}.

(** ** Ticks and what they raise *)

(** The observation [handleTick] builds. *)
Definition observe (host : Host) (dt : Q) (k : Kernel) : Observation :=
  {| timestamp := now host;
     user_interaction := if is_paused (status (state k)) then Some pause else None;
     visibilty_state := if document_hidden host then hidden else visible;
     delta_time := dt |}.

(** A session is under way: the status is RUNNING and a pattern is loaded. *)
Definition active (s : RuntimeState) : bool :=
  is_running (status s)
  && match pattern s with Some _ => true | None => false end.

Definition is_transition (e : KernelEvent) : bool :=
  match e with PHASE_TRANSITION _ _ _ => true | _ => false end.
Definition is_cycle (e : KernelEvent) : bool :=
  match e with CYCLE_COMPLETE _ _ => true | _ => false end.
Definition is_intervention (e : KernelEvent) : bool :=
  match e with SAFETY_INTERVENTION _ _ _ => true | _ => false end.

(** The events a tick may log after itself: at most a phase transition,
    then at most a cycle completion (only after a transition), then at most
    a safety intervention. *)
Definition follow_up_shape (l : list KernelEvent) : bool :=
  match l with
  | [] => true
  | [SAFETY_INTERVENTION _ _ _] => true
  | PHASE_TRANSITION _ _ _ :: l' =>
      match l' with
      | [] => true
      | [CYCLE_COMPLETE _ _] => true
      | [SAFETY_INTERVENTION _ _ _] => true
      | [CYCLE_COMPLETE _ _; SAFETY_INTERVENTION _ _ _] => true
      | _ => false
      end
  | _ => false
  end.

(** The state on which the guard of a tick is evaluated when the tick does
    not end the phase: belief and clocks advanced, entropy as stored. *)
Definition advanced (host : Host) (dt : Q) (k : Kernel) : RuntimeState :=
  set_sessionDuration (sessionDuration (state k) + dt)
    (set_phaseElapsed (phaseElapsed (state k) + dt)
       (set_belief (update (belief (state k)) (observe host dt k)
                      (is_running (status (state k))))
          (state k))).

(** ** Shape of a reachable state *)

(** HALTED is not a status the kernel is ever in, and a session that runs
    or is paused has a pattern. *)
Definition status_ok (s : RuntimeState) : Prop :=
  match status s with
  | HALTED => False
  | RUNNING | PAUSED => is_Some (pattern s)
  | IDLE | SAFETY_LOCK => True
  end.

(** The loaded pattern is the catalog entry of its id, and the phase
    duration is what that entry gives for the current phase; with no
    pattern the phase duration is 0. *)
Definition pattern_ok (s : RuntimeState) : Prop :=
  match pattern s with
  | Some pat =>
      BREATHING_PATTERNS !! id pat = Some pat
      /\ phaseDuration s = timing_at (timings pat) (phase s)
  | None => phaseDuration s = 0
  end.

(** A catalog entry is filed under its own id, breathes in and out for a
    positive time and holds for a time that is not negative. *)
Definition entry_ok (key : string) (pat : BreathPattern) : Prop :=
  id pat = key
  /\ 0 < on_inhale (timings pat) /\ 0 <= on_holdIn (timings pat)
  /\ 0 < on_exhale (timings pat) /\ 0 <= on_holdOut (timings pat)
  /\ 0 < recommendedCycles pat.

(** Events that take the kernel out of SAFETY_LOCK. *)
Definition releases_lock (e : KernelEvent) : bool :=
  match e with
  | LOAD_PROTOCOL _ _ | START_SESSION _ | HALT _ _ => true
  | _ => false
  end.

(** A call whose tick, if it is one, does not run time backwards. *)
Definition forward_call (c : Call) : Prop :=
  match c with
  | Dispatch _ (TICK dt _) => 0 <= dt
  | _ => True
  end.

(** ** More sample data *)

(** A host whose document is hidden. *)
Definition background (n : Z) : Host := {| now := n; document_hidden := true |}.

(** A registry that distrusts [box]. *)
Definition box_distrust : gmap string TraumaRecord :=
  {[ "box"%string :=
       {| patternId := "box"; total_exposure_seconds := 60;
          adverse_events := 4; resonance_score := 0.1; last_updated := 0 |} ]}.

(** A running box session under that registry, two ticks into a hidden
    document. *)
Definition hidden_box_session : list Call :=
  running_box_session
  ++ [SetSafetyRegistry box_distrust;
      Dispatch (background 3) (TICK 0.9 3);
      Dispatch (background 4) (TICK 0.9 4)].

Definition hidden_box : Kernel :=
  Eval vm_compute in default fresh (run hidden_box_session fresh).

(** ** Driving the kernel through the engine bridge *)

(** What the hook does to the kernel: its two command effects and a frame
    of its heartbeat. *)
Inductive HookCall :=
| SessionEffect (host host' : Host) (isActive : bool) (patternId : string)
| PauseEffect (host : Host) (isActive isPaused : bool)
| Loop (host : Host) (frame : Q).

(** The hook's [lastTimeRef] and the kernel. *)
Definition hook_call (c : HookCall) (st : Q * Kernel) : option (Q * Kernel) :=
  match c with
  | SessionEffect host host' isActive patternId =>
      k ← BreathEngine.sessionEffect host host' isActive patternId (snd st);
      Some (fst st, k)
  | PauseEffect host isActive isPaused =>
      k ← BreathEngine.pauseEffect host isActive isPaused (snd st);
      Some (fst st, k)
  | Loop host frame => BreathEngine.loop host frame (fst st) (snd st)
  end.

Fixpoint hook_run (cs : list HookCall) (st : Q * Kernel) : option (Q * Kernel) :=
  match cs with
  | [] => Some st
  | c :: cs' => st1 ← hook_call c st; hook_run cs' st1
  end.

(** A logged tick whose delta time lies strictly between 0 and 1 second;
    any other event. *)
Definition tick_in_range (e : KernelEvent) : Prop :=
  match e with
  | TICK dt _ => 0 < dt /\ dt < 1
  | _ => True
  end.



(** ** Sessions registered with the settings store *)

(** One call of [registerSessionComplete]: what the host answers, the
    arguments, and the kernel as it is at that time. *)
Record Session := {
  s_env : SettingsStore.Env;
  s_durationSec : Q;
  s_patternId : string;
  s_cycles : Q;
  s_kernel : Kernel
}.

Definition register (s : Session) (st : SettingsStore.SettingsState)
    : SettingsStore.SettingsState :=
  fst (SettingsStore.registerSessionComplete (s_env s) (s_durationSec s)
         (s_patternId s) (s_cycles s) st (s_kernel s)).

(** The store after a series of sessions, oldest first. *)
Fixpoint registerAll (sessions : list Session) (st : SettingsStore.SettingsState)
    : SettingsStore.SettingsState :=
  match sessions with
  | [] => st
  | s :: rest => registerAll rest (register s st)
  end.

(** The registry of a store. *)
Definition registry_of (st : SettingsStore.SettingsState) : gmap string TraumaRecord :=
  SettingsStore.traumaRegistry (SettingsStore.userSettings st).

(** A session counts as a success when it lasted more than 45 seconds and
    the kernel's entropy is below 0.5. *)
Definition succeeded (s : Session) : bool :=
  Qgtb (s_durationSec s) 45 && Qltb (entropy (state (s_kernel s))) 0.5.

(** Sessions long enough to enter the history. *)
Definition recorded (s : Session) : bool := Qgtb (s_durationSec s) 10.

(** A record filed under [key]: the score lies in the unit interval, the
    adverse events are a natural number, and the score is at least 0.5
    minus a tenth per adverse event. *)
Definition record_ok (key : string) (r : TraumaRecord) : Prop :=
  patternId r = key
  /\ unit_interval (resonance_score r)
  /\ (exists n : nat, adverse_events r == inject_Z (Z.of_nat n))
  /\ 0.5 - 0.1 * adverse_events r <= resonance_score r.

(** ** Sample sessions *)

Definition sample_env : SettingsStore.Env :=
  {| SettingsStore.nowCreated := 1793500000000;
     SettingsStore.nowUpdated := 1793500000000;
     SettingsStore.nowId := 1793500000001;
     SettingsStore.nowTimestamp := 1793500000001;
     SettingsStore.randomDigits := "4821";
     SettingsStore.today :=
       {| SettingsStore.fullYear := 2026; SettingsStore.month := 10;
          SettingsStore.date := 1 |};
     SettingsStore.yesterday :=
       {| SettingsStore.fullYear := 2026; SettingsStore.month := 9;
          SettingsStore.date := 31 |} |}.

(** Twenty seconds of [box], given up; a full minute of it, calm. *)
Definition short_session : Session :=
  {| s_env := sample_env; s_durationSec := 20; s_patternId := "box";
     s_cycles := 1; s_kernel := running_box |}.

Definition calm_session : Session :=
  {| s_env := sample_env; s_durationSec := 60; s_patternId := "box";
     s_cycles := 3; s_kernel := running_box |}.

(** A running [box] session in distress. *)
Definition distressed_box : RuntimeState :=
  {| status := RUNNING; pattern := Some box; phase := exhale;
     phaseElapsed := 1; phaseDuration := 4; cycleCount := 2;
     sessionDuration := 33;
     belief := {| arousal := 0.95; attention := 0.1; rhythm_alignment := 0 |};
     entropy := 0.95 |}.

(** ** Dates and streaks *)

(** The ranges of [getFullYear] (of our era), [getMonth] and [getDate]. *)
Definition valid_date (d : SettingsStore.LocalDate) : Prop :=
  (0 <= SettingsStore.fullYear d)%Z
  /\ (0 <= SettingsStore.month d <= 11)%Z
  /\ (1 <= SettingsStore.date d <= 31)%Z.

Fixpoint no_dash (s : string) : bool :=
  match s with
  | EmptyString => true
  | String a rest => negb (Ascii.eqb a "-"%char) && no_dash rest
  end.

(** Reads a two-digit field back. *)
Definition digit_of (a : ascii) : Z := (Z.of_nat (nat_of_ascii a) - 48)%Z.

Definition two_digits (s : string) : option Z :=
  match s with
  | String a (String b EmptyString) => Some (10 * digit_of a + digit_of b)%Z
  | _ => None
  end.

(** Sessions long enough to count for the streak. *)
Definition counted (s : Session) : bool := Qgtb (s_durationSec s) 30.

(** The streak is a natural number of at most [bound], and it is zero
    exactly as long as no breath date was stored. *)
Definition streak_ok (bound : nat) (st : SettingsStore.SettingsState) : Prop :=
  exists n : nat,
    SettingsStore.streak (SettingsStore.userSettings st) = inject_Z (Z.of_nat n)
    /\ (n <= bound)%nat
    /\ (n = 0%nat <->
        SettingsStore.lastBreathDate (SettingsStore.userSettings st) = EmptyString).

(** Ten calm sessions. *)
Definition ten_sessions : list Session := repeat calm_session 10.

(** * Properties *)

(** ** Comparisons *)

Lemma Qltb_lt (x y : Q) : Qltb x y = true <-> x < y.
Proof.
  unfold Qltb. rewrite Qlt_alt.
  destruct (x ?= y); split; intros H; congruence.
Qed.

Lemma Qgtb_gt (x y : Q) : Qgtb x y = true <-> y < x.
Proof. apply Qltb_lt. Qed.

Lemma Qgeb_ge (x y : Q) : Qgeb x y = true <-> y <= x.
Proof. apply Qle_bool_iff. Qed.

(** [Math.max] and [Math.min] as case distinctions, for [lra]. *)
Lemma Qmax_cases (x y : Q) : (y <= x /\ Qmax x y == x) \/ (x <= y /\ Qmax x y == y).
Proof.
  destruct (Qlt_le_dec x y) as [H | H].
  - right. split; [apply Qlt_le_weak, H | apply Q.max_r, Qlt_le_weak, H].
  - left. split; [exact H | apply Q.max_l, H].
Qed.

Lemma Qmin_cases (x y : Q) : (x <= y /\ Qmin x y == x) \/ (y <= x /\ Qmin x y == y).
Proof.
  destruct (Qlt_le_dec y x) as [H | H].
  - right. split; [apply Qlt_le_weak, H | apply Q.min_r, Qlt_le_weak, H].
  - left. split; [exact H | apply Q.min_l, H].
Qed.

Ltac split_minmax :=
  repeat match goal with
  | |- context [Qmax ?x ?y] =>
      let H := fresh "Hmax" in
      destruct (Qmax_cases x y) as [[? H] | [? H]]; rewrite H
  | |- context [Qmin ?x ?y] =>
      let H := fresh "Hmin" in
      destruct (Qmin_cases x y) as [[? H] | [? H]]; rewrite H
  end.

(** ** The entropy formula *)

Lemma calculateEntropy_clamp01 (b : BeliefState) :
  calculateEntropy b == clamp01 (arousal b * (1 - 0.8 * rhythm_alignment b)).
Proof.
  unfold calculateEntropy, clamp01.
  assert (E : arousal b * (1.0 - rhythm_alignment b * 0.8)
              == arousal b * (1 - 0.8 * rhythm_alignment b)) by ring.
  assert (E1 : 1.0 == 1) by reflexivity.
  rewrite E, E1. reflexivity.
Qed.


(** ** Safety guard *)

Lemma watchdog_fires (s : RuntimeState) (pat : BreathPattern) :
  match tier pat with Tier2 => true | _ => false end
    && Qgtb (cycleCount s) 30 && Qgtb (arousal (belief s)) 0.9 = true
  <-> hyperventilating s pat.
Proof.
  unfold hyperventilating.
  rewrite !andb_true_iff, !Qgtb_gt.
  destruct (tier pat); intuition congruence.
Qed.

Lemma check_no_pattern (now : Z) (s : RuntimeState) (registry : gmap string TraumaRecord) :
  pattern s = None -> HippocraticGuard.check now s registry = None.
Proof. intros H. unfold HippocraticGuard.check. rewrite H. reflexivity. Qed.

(** The guard raises nothing but safety interventions. *)
Lemma check_intervention (now : Z) (s : RuntimeState)
    (registry : gmap string TraumaRecord) (e : KernelEvent) :
  HippocraticGuard.check now s registry = Some e ->
  exists risk action, e = SAFETY_INTERVENTION risk action now.
Proof.
  unfold HippocraticGuard.check.
  destruct (pattern s) as [pat |]; [| discriminate].
  destruct (registry !! id pat) as [record |];
    repeat match goal with
    | |- context [if ?c then _ else _] => destruct c
    end;
    intros [= <-]; eauto.
Qed.

(** ** Property access *)

Lemma get_own {A : Type} (obj : gmap string A) (key : string) (a : A) :
  obj !! key = Some a -> get obj key = own a.
Proof. unfold get. intros ->. reflexivity. Qed.

Lemma get_own_inv {A : Type} (obj : gmap string A) (key : string) (a : A) :
  get obj key = own a -> obj !! key = Some a.
Proof.
  unfold get. destruct (obj !! key); [intros [= ->]; reflexivity |].
  destruct (bool_decide _); discriminate.
Qed.

Lemma get_not_own {A : Type} (obj : gmap string A) (key : string) :
  obj !! key = None ->
  get obj key = if bool_decide (key ∈ Object_prototype) then inherited else undefined.
Proof. unfold get. intros ->. reflexivity. Qed.

(** None of the inherited names is a key of the catalog. *)
Lemma catalog_inherits :
  Forall (fun key => BREATHING_PATTERNS !! key = None) Object_prototype.
Proof. repeat constructor. Qed.

(** ** Re-entrant dispatch *)

(** Reduction of such an event does not look at the re-entrant dispatch. *)
Lemma reduce_flat disp disp' (host : Host) (e : KernelEvent) (k : Kernel) :
  is_tick e = false -> reduce disp host e k = reduce disp' host e k.
Proof. destruct e; simpl; intros H; first [discriminate H | reflexivity]. Qed.

Lemma reduce_flat_total disp (host : Host) (e : KernelEvent) (k : Kernel) :
  is_tick e = false -> throws e = false -> is_Some (reduce disp host e k).
Proof.
  destruct e; simpl; intros H Ht; try discriminate H; eauto.
  destruct (get BREATHING_PATTERNS patternId0); first [discriminate Ht | eauto].
Qed.

Lemma reduce_throws disp (host : Host) (e : KernelEvent) (k : Kernel) :
  throws e = true -> reduce disp host e k = None.
Proof.
  destruct e; simpl; intros Ht; try discriminate Ht.
  destruct (get BREATHING_PATTERNS patternId0); first [discriminate Ht | reflexivity].
Qed.

Lemma dispatchN_flat (d d' : nat) (host : Host) (e : KernelEvent) (k : Kernel) :
  is_tick e = false ->
  dispatchN (S d) host e k = dispatchN (S d') host e k.
Proof.
  intros H. simpl. unfold dispatch_body.
  rewrite (reduce_flat _ (dispatchN d' host)) by exact H. reflexivity.
Qed.

Lemma dispatchN_flat_total (d : nat) (host : Host) (e : KernelEvent) (k : Kernel) :
  is_tick e = false -> throws e = false -> is_Some (dispatchN (S d) host e k).
Proof.
  intros H Ht. simpl. unfold dispatch_body.
  destruct (reduce_flat_total (dispatchN d host) host e (log e k) H Ht) as [k1 ->].
  simpl. eauto.
Qed.

(** A rule for reasoning about a tick: a property of kernels that survives
    the direct assignments of [handleTick] and each of the three kinds of
    dispatch it may issue, survives [handleTick]. *)
Section TickRule.
Variable disp : KernelEvent -> Kernel -> option Kernel.
Variable host : Host.
Variable I : Kernel -> Prop.

Hypothesis I_assign : forall k b el sd,
  I k ->
  I (with_state (fun s => set_sessionDuration sd (set_phaseElapsed el (set_belief b s))) k).
Hypothesis I_belief : forall k b,
  I k -> I (with_state (set_belief b) k).
Hypothesis I_transition : forall from to k k',
  I k -> disp (PHASE_TRANSITION from to (now host)) k = Some k' -> I k'.
Hypothesis I_cycle : forall k k',
  I k -> disp (CYCLE_COMPLETE (cycleCount (state k) + 1) (now host)) k = Some k' -> I k'.
Hypothesis I_hazard : forall risk action k k',
  I k -> disp (SAFETY_INTERVENTION risk action (now host)) k = Some k' -> I k'.

Lemma transitionPhase_rule (k k' : Kernel) :
  I k -> transitionPhase disp host k = Some k' -> I k'.
Proof.
  intros Hk. unfold transitionPhase.
  destruct (pattern (state k)) as [pat |]; [| intros [= <-]; exact Hk].
  destruct (disp (PHASE_TRANSITION _ _ _) k) as [k1 |] eqn:E1; simpl; [| discriminate].
  apply I_transition in E1; [| exact Hk].
  destruct (isCycleBoundary _).
  - intros E2. eapply I_cycle; eauto.
  - intros [= <-]. exact E1.
Qed.

Lemma handleTick_rule (dt : Q) (k k' : Kernel) :
  I k -> handleTick disp host dt k = Some k' -> I k'.
Proof.
  intros Hk. unfold handleTick.
  match goal with |- context [if ?c then _ else _] => destruct c end.
  - intros [= <-]. apply I_belief, Hk.
  - match goal with
    | |- context [with_state ?f (with_state ?g k)] =>
        assert (H2 : I (with_state f (with_state g k)))
    end.
    { apply (I_assign k _ _ _ Hk). }
    match goal with
    | |- context [mbind _ ?m] => destruct m as [k3 |] eqn:E3
    end; simpl; [| discriminate].
    assert (H3 : I k3).
    { destruct (Qgeb _ _).
      - eapply transitionPhase_rule; eauto.
      - injection E3 as <-. exact H2. }
    destruct (HippocraticGuard.check _ _ _) as [hazard |] eqn:Ec.
    + destruct (check_intervention _ _ _ _ Ec) as (risk & action & ->).
      intros E4. eapply I_hazard; eauto.
    + intros [= <-]. exact H3.
Qed.
End TickRule.

Lemma check_flat (now : Z) (s : RuntimeState)
    (registry : gmap string TraumaRecord) (e : KernelEvent) :
  HippocraticGuard.check now s registry = Some e -> is_tick e = false.
Proof.
  intros H. destruct (check_intervention _ _ _ _ H) as (risk & action & ->).
  reflexivity.
Qed.

Section TickCallbacks.
Variables disp disp' : KernelEvent -> Kernel -> option Kernel.
Variable host : Host.

Lemma transitionPhase_total (k : Kernel) :
  (forall e k, is_tick e = false -> is_load e = false -> is_Some (disp e k)) ->
  is_Some (transitionPhase disp host k).
Proof.
  intros Hd. unfold transitionPhase.
  destruct (pattern (state k)) as [pat |]; [| eauto].
  destruct (Hd (PHASE_TRANSITION (phase (state k))
                  (nextPhaseSkipZero (phase (state k)) pat) (now host)) k
              eq_refl eq_refl)
    as [k1 ->].
  simpl. destruct (isCycleBoundary _); [apply Hd; reflexivity | eauto].
Qed.

Lemma handleTick_total (dt : Q) (k : Kernel) :
  (forall e k, is_tick e = false -> is_load e = false -> is_Some (disp e k)) ->
  is_Some (handleTick disp host dt k).
Proof.
  intros Hd. unfold handleTick.
  match goal with |- context [if ?c then _ else _] => destruct c end; [eauto |].
  match goal with
  | |- context [mbind _ ?m] => assert (H3 : is_Some m)
  end.
  { destruct (Qgeb _ _); [apply transitionPhase_total, Hd | eauto]. }
  destruct H3 as [k3 ->]. simpl.
  destruct (HippocraticGuard.check _ _ _) as [hazard |] eqn:Ec; [| eauto].
  destruct (check_intervention _ _ _ _ Ec) as (risk & action & ->).
  apply Hd; reflexivity.
Qed.

Lemma transitionPhase_ext (k : Kernel) :
  (forall e k, is_tick e = false -> disp e k = disp' e k) ->
  transitionPhase disp host k = transitionPhase disp' host k.
Proof.
  intros Hd. unfold transitionPhase.
  destruct (pattern (state k)) as [pat |]; [| reflexivity].
  rewrite Hd by reflexivity.
  destruct (disp' _ k) as [k1 |]; simpl; [| reflexivity].
  destruct (isCycleBoundary _); [apply Hd |]; reflexivity.
Qed.

Lemma handleTick_ext (dt : Q) (k : Kernel) :
  (forall e k, is_tick e = false -> disp e k = disp' e k) ->
  handleTick disp host dt k = handleTick disp' host dt k.
Proof.
  intros Hd. unfold handleTick.
  match goal with |- context [if ?c then _ else _] => destruct c end; [reflexivity |].
  rewrite transitionPhase_ext by exact Hd.
  match goal with
  | |- context [mbind _ ?m] => destruct m as [k3 |]
  end; simpl; [| reflexivity].
  destruct (HippocraticGuard.check _ _ _) as [hazard |] eqn:Ec; [| reflexivity].
  apply Hd. eapply check_flat, Ec.
Qed.
End TickCallbacks.

(** The dispatch of a tick, one level unfolded. *)
Lemma dispatchN_tick (d : nat) (host : Host) (dt : Q) (ts : Z) (k : Kernel) :
  dispatchN (S d) host (TICK dt ts) k =
  k1 ← handleTick (dispatchN d host) host dt (log (TICK dt ts) k);
  Some (notify (with_state recalculateEntropy k1)).
Proof.
  simpl. unfold dispatch_body. simpl.
  destruct (handleTick _ _ _ _); reflexivity.
Qed.

(** Two levels of nesting are enough, and more change nothing. *)
Lemma dispatchN_enough (d : nat) (host : Host) (e : KernelEvent) (k : Kernel) :
  dispatchN (S (S d)) host e k = dispatch host e k.
Proof.
  destruct (is_tick e) eqn:Et.
  - destruct e; try discriminate Et.
    unfold dispatch. rewrite !dispatchN_tick.
    rewrite (handleTick_ext _ (dispatchN 1 host)); [reflexivity |].
    intros e k0 He. apply (dispatchN_flat d 0), He.
  - apply dispatchN_flat, Et.
Qed.

(** Only a load can throw. *)
Lemma throws_load (e : KernelEvent) : is_load e = false -> throws e = false.
Proof. destruct e; intros H; first [discriminate H | reflexivity]. Qed.

(** A dispatch returns unless it is the load of an inherited name, which
    throws: the nesting budget of [dispatch] never runs out. *)
Lemma dispatch_total (host : Host) (e : KernelEvent) (k : Kernel) :
  throws e = false -> is_Some (dispatch host e k).
Proof.
  intros Hthrows. destruct (is_tick e) eqn:Et.
  - destruct e; try discriminate Et.
    unfold dispatch. rewrite dispatchN_tick.
    destruct (handleTick_total (dispatchN 1 host) host dt (log (TICK dt ts) k))
      as [k1 ->].
    + intros e k0 He Hl. apply (dispatchN_flat_total 0); [exact He |].
      apply throws_load, Hl.
    + simpl. eauto.
  - apply dispatchN_flat_total; [exact Et | exact Hthrows].
Qed.

Lemma dispatch_throws (host : Host) (e : KernelEvent) (k : Kernel) :
  throws e = true -> dispatch host e k = None.
Proof.
  intros Hthrows. unfold dispatch. simpl. unfold dispatch_body.
  rewrite reduce_throws by exact Hthrows. reflexivity.
Qed.

Lemma dispatch_returns_iff (host : Host) (e : KernelEvent) (k : Kernel) :
  is_Some (dispatch host e k) <-> throws e = false.
Proof.
  split.
  - intros [k' H]. destruct (throws e) eqn:Ht; [| reflexivity].
    rewrite dispatch_throws in H by exact Ht. discriminate H.
  - apply dispatch_total.
Qed.

Lemma run_reachable (cs : list Call) (k k' : Kernel) :
  Reachable k -> run cs k = Some k' -> Reachable k'.
Proof.
  revert k. induction cs as [| c cs IH]; intros k Hk; simpl.
  - intros [= <-]. exact Hk.
  - destruct (call c k) as [k1 |] eqn:E; simpl; [| discriminate].
    apply IH. eapply Reachable_call; eauto.
Qed.

(** ** Entropy follows belief *)

Lemma recalculateEntropy_current (s : RuntimeState) :
  entropy_current (recalculateEntropy s).
Proof. reflexivity. Qed.

Lemma recalculateEntropy_id (s : RuntimeState) :
  entropy_current s -> recalculateEntropy s = s.
Proof.
  unfold entropy_current, recalculateEntropy, set_entropy.
  intros <-. destruct s; reflexivity.
Qed.

Lemma notify_current (k : Kernel) :
  snapshots_current k -> entropy_current (state k) ->
  snapshots_current (notify k).
Proof.
  intros Hn Hs. unfold snapshots_current, notify. simpl.
  apply Forall_app. split; [exact Hn | repeat constructor; exact Hs].
Qed.

(** Reducing anything but a tick or a load leaves a current entropy behind,
    whatever the state before; an unresolved load keeps what it found. *)
Lemma dispatchN_flat_current (d : nat) (host : Host) (e : KernelEvent) (k k' : Kernel) :
  is_tick e = false ->
  (is_load e = true -> entropy_current (state k)) ->
  snapshots_current k ->
  dispatchN (S d) host e k = Some k' ->
  entropy_current (state k') /\ snapshots_current k'.
Proof.
  intros Ht Hl Hn. simpl. unfold dispatch_body.
  destruct e; try discriminate Ht; simpl;
    try (intros [= <-]; split;
         [| apply notify_current; [exact Hn |]]; apply recalculateEntropy_current).
  destruct (get BREATHING_PATTERNS patternId0) as [pat | |]; simpl;
    [intros [= <-] | discriminate | intros [= <-]].
  - split; [| apply notify_current; [exact Hn |]]; apply recalculateEntropy_current.
  - split; [| apply notify_current; [exact Hn |]]; apply Hl; reflexivity.
Qed.

Lemma dispatch_current (host : Host) (e : KernelEvent) (k k' : Kernel) :
  entropy_current (state k) -> snapshots_current k ->
  dispatch host e k = Some k' ->
  entropy_current (state k') /\ snapshots_current k'.
Proof.
  intros Hs Hn. destruct (is_tick e) eqn:Et.
  - destruct e; try discriminate Et.
    unfold dispatch. rewrite dispatchN_tick.
    destruct (handleTick _ _ _ _) as [k1 |] eqn:E; simpl; [| discriminate].
    intros [= <-].
    assert (H1 : snapshots_current k1).
    { revert E. apply handleTick_rule with (I := snapshots_current).
      - intros k0 b el sd H. exact H.
      - intros k0 b H. exact H.
      - intros from to k0 k0' H E.
        eapply (dispatchN_flat_current 0); [| | exact H | exact E]; [reflexivity | discriminate].
      - intros k0 k0' H E.
        eapply (dispatchN_flat_current 0); [| | exact H | exact E]; [reflexivity | discriminate].
      - intros risk action k0 k0' H E.
        eapply (dispatchN_flat_current 0); [| | exact H | exact E]; [reflexivity | discriminate].
      - exact Hn. }
    split; [| apply notify_current; [exact H1 |]]; apply recalculateEntropy_current.
  - apply dispatchN_flat_current; auto.
Qed.

Lemma reachable_current (k : Kernel) :
  Reachable k -> entropy_current (state k) /\ snapshots_current k.
Proof.
  induction 1 as [host k Hnew | c k k' Hk [IHs IHn] Hc].
  - unfold new, emit in Hnew.
    apply (dispatchN_flat_current 1) in Hnew; auto; [discriminate | constructor].
  - destruct c as [host e | registry]; simpl in Hc.
    + eapply dispatch_current; eauto.
    + injection Hc as <-. split; assumption.
Qed.

(** ** Cycle count *)

Lemma ascending_snoc (c x y : Q) (l : list Q) :
  ascending c (l ++ [x]) -> x <= y -> ascending c ((l ++ [x]) ++ [y]).
Proof.
  revert c. induction l as [| z l IH]; simpl; intros c.
  - intros [H _] Hxy. repeat split; assumption.
  - intros [H1 H2] Hxy. split; [exact H1 | apply IH; assumption].
Qed.

Lemma ascending_raise_last (c x y : Q) (l : list Q) :
  ascending c (l ++ [x]) -> x <= y -> ascending c (l ++ [y]).
Proof.
  revert c. induction l as [| z l IH]; simpl; intros c.
  - intros [H _] Hxy. split; [eapply Qle_trans; eassumption | trivial].
  - intros [H1 H2] Hxy. split; [exact H1 | apply IH; assumption].
Qed.

Lemma ascending_last (c x : Q) (l : list Q) :
  ascending c (l ++ [x]) -> c <= x.
Proof.
  revert c. induction l as [| z l IH]; simpl; intros c.
  - intros [H _]. exact H.
  - intros [H1 H2]. eapply Qle_trans; [exact H1 | apply IH, H2].
Qed.

Lemma counts_ascend_refl (k : Kernel) : counts_ascend_since k k.
Proof.
  exists []. split; [symmetry; apply app_nil_r | simpl; split; [apply Qle_refl | trivial]].
Qed.

(** A step that keeps the snapshots and does not lower the count. *)
Lemma counts_ascend_assign (k0 k : Kernel) (f : RuntimeState -> RuntimeState) :
  cycleCount (f (state k)) = cycleCount (state k) ->
  counts_ascend_since k0 k -> counts_ascend_since k0 (with_state f k).
Proof.
  intros Hf (snaps & Hn & Ha). exists snaps. simpl. rewrite Hf. auto.
Qed.

(** A step that sends one snapshot, of a state whose count is not lower. *)
Lemma counts_ascend_notify (k0 k : Kernel) (f : RuntimeState -> RuntimeState) :
  cycleCount (state k) <= cycleCount (f (state k)) ->
  counts_ascend_since k0 k ->
  counts_ascend_since k0 (notify (with_state f k)).
Proof.
  intros Hf (snaps & Hn & Ha).
  exists (snaps ++ [f (state k)]). simpl. split.
  - rewrite Hn. symmetry. apply app_assoc.
  - rewrite map_app. simpl. apply ascending_snoc.
    + eapply ascending_raise_last; [exact Ha | exact Hf].
    + apply Qle_refl.
Qed.

Lemma counts_ascend_log (k0 k : Kernel) (e : KernelEvent) :
  counts_ascend_since k0 k -> counts_ascend_since k0 (log e k).
Proof. intros H. exact H. Qed.

Lemma Qle_succ (x : Q) : x <= x + 1.
Proof. lra. Qed.

(** A tick never lowers the count, through all the dispatches it issues. *)
Lemma handleTick_counts (host : Host) (dt : Q) (k0 k k' : Kernel) :
  counts_ascend_since k0 k ->
  handleTick (dispatchN 1 host) host dt k = Some k' ->
  counts_ascend_since k0 k'.
Proof.
  apply handleTick_rule.
  - intros k1 b el sd H. apply counts_ascend_assign; [reflexivity | exact H].
  - intros k1 b H. apply counts_ascend_assign; [reflexivity | exact H].
  - intros from to k1 k1' H. simpl. unfold dispatch_body. simpl.
    intros [= <-]. apply counts_ascend_notify; [apply Qle_refl | exact H].
  - intros k1 k1' H. simpl. unfold dispatch_body. simpl.
    intros [= <-]. apply counts_ascend_notify; [apply Qle_succ | exact H].
  - intros risk action k1 k1' H. simpl. unfold dispatch_body. simpl.
    intros [= <-]. apply counts_ascend_notify; [apply Qle_refl | exact H].
Qed.

Lemma dispatch_tick_counts (host : Host) (dt : Q) (ts : Z) (k k' : Kernel) :
  dispatch host (TICK dt ts) k = Some k' -> counts_ascend_since k k'.
Proof.
  unfold dispatch. rewrite dispatchN_tick.
  destruct (handleTick _ _ _ _) as [k1 |] eqn:E; simpl; [| discriminate].
  intros [= <-].
  apply counts_ascend_notify; [apply Qle_refl |].
  eapply handleTick_counts; [| exact E].
  apply counts_ascend_log, counts_ascend_refl.
Qed.

(** ** A tick that ends a phase *)

Lemma check_silent (now : Z) (s : RuntimeState) (pat : BreathPattern)
    (registry : gmap string TraumaRecord) :
  pattern s = Some pat -> registry !! id pat = None -> tier pat <> Tier2 ->
  HippocraticGuard.check now s registry = None.
Proof.
  intros Hp Hr Ht. unfold HippocraticGuard.check. rewrite Hp, Hr.
  destruct (tier pat); [reflexivity | contradiction | reflexivity].
Qed.

Lemma dispatch_tick_phase_end (host : Host) (dt : Q) (ts : Z) (k : Kernel)
    (pat : BreathPattern) :
  status (state k) = RUNNING ->
  pattern (state k) = Some pat ->
  phaseDuration (state k) <= phaseElapsed (state k) + dt ->
  safetyRegistry k !! id pat = None ->
  tier pat <> Tier2 ->
  let next := nextPhaseSkipZero (phase (state k)) pat in
  exists k',
    dispatch host (TICK dt ts) k = Some k'
    /\ eventLog k' =
         eventLog k ++ TICK dt ts
           :: PHASE_TRANSITION (phase (state k)) next (now host)
           :: cycle_events next (cycleCount (state k)) (now host)
    /\ status (state k') = RUNNING
    /\ pattern (state k') = Some pat
    /\ phase (state k') = next
    /\ phaseElapsed (state k') = 0
    /\ phaseDuration (state k') = timing_at (timings pat) next
    /\ cycleCount (state k') =
         (if isCycleBoundary next then cycleCount (state k) + 1 else cycleCount (state k))
    /\ safetyRegistry k' = safetyRegistry k.
Proof.
  destruct k as [[st p ph el du cc sd b en] lg reg ntf]. simpl.
  intros -> -> Hel Hreg Htier.
  apply Qgeb_ge in Hel.
  unfold dispatch. rewrite dispatchN_tick. unfold handleTick. simpl.
  rewrite Hel. unfold transitionPhase. simpl.
  unfold dispatch_body. simpl. unfold cycle_events.
  destruct (isCycleBoundary _) eqn:Eb; simpl.
  - rewrite check_silent with (pat := pat); simpl; auto.
    eexists. split; [reflexivity |]. simpl.
    rewrite <- !app_assoc. simpl. repeat split; reflexivity.
  - rewrite check_silent with (pat := pat); simpl; auto.
    eexists. split; [reflexivity |]. simpl.
    rewrite <- !app_assoc. simpl. repeat split; reflexivity.
Qed.

(** ** Dispatch of the commands, as equations *)

Lemma dispatch_unknown_pattern (host : Host) (patternId : string) (ts : Z) (k : Kernel) :
  get BREATHING_PATTERNS patternId = undefined ->
  dispatch host (LOAD_PROTOCOL patternId ts) k
  = Some (notify (log (LOAD_PROTOCOL patternId ts) k)).
Proof.
  intros H. unfold dispatch. simpl. unfold dispatch_body. simpl.
  rewrite H. reflexivity.
Qed.


Lemma dispatch_load_resolved (host : Host) (patternId : string) (ts : Z) (k : Kernel)
    (pat : BreathPattern) :
  BREATHING_PATTERNS !! patternId = Some pat ->
  dispatch host (LOAD_PROTOCOL patternId ts) k
  = Some (notify (with_state (fun s =>
      recalculateEntropy
        {| status := IDLE; pattern := Some pat; phase := inhale;
           phaseElapsed := 0; phaseDuration := on_inhale (timings pat);
           cycleCount := 0; sessionDuration := 0;
           belief := {| arousal := arousal (belief s);
                        attention := attention (belief s);
                        rhythm_alignment := 0.0 |};
           entropy := entropy s |})
      (log (LOAD_PROTOCOL patternId ts) k))).
Proof.
  intros H. unfold dispatch. simpl. unfold dispatch_body. simpl.
  rewrite (get_own _ _ _ H). reflexivity.
Qed.

Lemma dispatch_start (host : Host) (ts : Z) (k : Kernel) :
  dispatch host (START_SESSION ts) k
  = Some (notify (with_state (fun s =>
      recalculateEntropy
        match pattern s with Some _ => set_status RUNNING s | None => s end)
      (log (START_SESSION ts) k))).
Proof. reflexivity. Qed.

Lemma dispatch_interruption (host : Host) (kind : InterruptionKind) (ts : Z) (k : Kernel) :
  dispatch host (USER_INTERRUPTION kind ts) k
  = Some (notify (with_state (fun s =>
      recalculateEntropy
        (if is_running (status s)
         then set_belief {| arousal := arousal (belief s);
                            attention := attention (belief s) * 0.8;
                            rhythm_alignment := rhythm_alignment (belief s) * 0.5 |}
                (set_status PAUSED s)
         else s))
      (log (USER_INTERRUPTION kind ts) k))).
Proof. reflexivity. Qed.

(** ** Sample kernels *)

Lemma new_fresh : new (foreground 0) = Some fresh.
Proof. reflexivity. Qed.

Lemma fresh_reachable : Reachable fresh.
Proof. exact (Reachable_new (foreground 0) fresh new_fresh). Qed.

Lemma catalog_box : BREATHING_PATTERNS !! "box"%string = Some box.
Proof. vm_compute. reflexivity. Qed.

Lemma loaded_box_run : run loaded_box_session fresh = Some loaded_box.
Proof. vm_compute. reflexivity. Qed.

Lemma running_box_run : run running_box_session fresh = Some running_box.
Proof. vm_compute. reflexivity. Qed.

(** ** Anatomy of a tick *)

Lemma tick_anatomy (host : Host) (dt : Q) (ts : Z) (k : Kernel) :
  exists k' follow,
    dispatch host (TICK dt ts) k = Some k'
    /\ eventLog k' = eventLog k ++ TICK dt ts :: follow
    /\ follow_up_shape follow = true
    /\ length (notified k') = (length (notified k) + S (length follow))%nat
    /\ safetyRegistry k' = safetyRegistry k
    /\ pattern (state k') = pattern (state k)
    /\ belief (state k')
       = update (belief (state k)) (observe host dt k) (is_running (status (state k)))
    /\ entropy (state k') = calculateEntropy (belief (state k'))
    /\ status (state k')
       = (if existsb is_intervention follow then SAFETY_LOCK else status (state k))
    /\ sessionDuration (state k')
       = (if active (state k) then sessionDuration (state k) + dt
          else sessionDuration (state k))
    /\ existsb is_transition follow
       = active (state k)
         && Qgeb (phaseElapsed (state k) + dt) (phaseDuration (state k))
    /\ phaseElapsed (state k')
       = (if existsb is_transition follow then 0
          else if active (state k) then phaseElapsed (state k) + dt
          else phaseElapsed (state k))
    /\ cycleCount (state k')
       = (if existsb is_cycle follow then cycleCount (state k) + 1
          else cycleCount (state k))
    /\ (if existsb is_transition follow
        then exists rest,
               follow = PHASE_TRANSITION (phase (state k)) (phase (state k')) (now host)
                          :: rest
        else phase (state k') = phase (state k)
             /\ phaseDuration (state k') = phaseDuration (state k))
    /\ (if active (state k)
        then if existsb is_transition follow then True
             else HippocraticGuard.check (now host) (advanced host dt k)
                    (safetyRegistry k) = head follow
        else follow = [])
    /\ (if existsb is_intervention follow
        then exists risk action,
               last follow = Some (SAFETY_INTERVENTION risk action (now host))
        else True).
Proof.
  unfold dispatch. rewrite dispatchN_tick.
  destruct k as [[st p ph el du cc sd b en] lg reg ntf].
  unfold handleTick, active, advanced, observe. simpl.
  assert (Hst : st = RUNNING \/ is_running st = false)
    by (destruct st; auto).
  destruct Hst as [-> | Hidle].
  2:{ destruct st; try discriminate Hidle; simpl;
        (eexists; exists []; (split; [reflexivity |]); simpl;
         rewrite length_app; simpl;
         repeat split; try reflexivity; lia). }
  simpl.
  destruct p as [pat |]; simpl.
  2:{ eexists. exists []. split; [reflexivity |]. simpl.
      rewrite length_app. simpl.
      repeat split; try reflexivity; try lia. }
  destruct (Qgeb (el + dt) du) eqn:Eg; simpl.
  - (* the phase ends *)
    unfold transitionPhase. simpl. unfold dispatch_body. simpl.
    set (next := nextPhaseSkipZero ph pat).
    destruct (isCycleBoundary next) eqn:Eb; simpl;
      destruct (HippocraticGuard.check _ _ _) as [hazard |] eqn:Ec; simpl;
      try (destruct (check_intervention _ _ _ _ Ec) as (risk & action & ->); simpl).
    + eexists.
      exists [PHASE_TRANSITION ph next (now host); CYCLE_COMPLETE (cc + 1) (now host);
              SAFETY_INTERVENTION risk action (now host)].
      split; [reflexivity |]. simpl. rewrite <- !app_assoc, !length_app. simpl.
      repeat split; try reflexivity; try lia; eauto.
    + eexists.
      exists [PHASE_TRANSITION ph next (now host); CYCLE_COMPLETE (cc + 1) (now host)].
      split; [reflexivity |]. simpl. rewrite <- !app_assoc, !length_app. simpl.
      repeat split; try reflexivity; try lia; eauto.
    + eexists.
      exists [PHASE_TRANSITION ph next (now host);
              SAFETY_INTERVENTION risk action (now host)].
      split; [reflexivity |]. simpl. rewrite <- !app_assoc, !length_app. simpl.
      repeat split; try reflexivity; try lia; eauto.
    + eexists.
      exists [PHASE_TRANSITION ph next (now host)].
      split; [reflexivity |]. simpl. rewrite <- !app_assoc, !length_app. simpl.
      repeat split; try reflexivity; try lia; eauto.
  - (* the phase goes on *)
    destruct (HippocraticGuard.check _ _ _) as [hazard |] eqn:Ec; simpl;
      try (destruct (check_intervention _ _ _ _ Ec) as (risk & action & ->); simpl).
    + eexists. exists [SAFETY_INTERVENTION risk action (now host)].
      split; [reflexivity |]. simpl. rewrite <- !app_assoc, !length_app. simpl.
      repeat split; try reflexivity; try lia; try exact Ec; eauto.
    + eexists. exists [].
      split; [reflexivity |]. simpl. rewrite !length_app. simpl.
      repeat split; try reflexivity; try lia; try exact Ec; eauto.
Qed.

(** ** The event log *)

Lemma dispatch_flat_log (host : Host) (e : KernelEvent) (k : Kernel) :
  is_tick e = false -> throws e = false ->
  exists k',
    dispatch host e k = Some k'
    /\ eventLog k' = eventLog k ++ [e]
    /\ length (notified k') = S (length (notified k))
    /\ safetyRegistry k' = safetyRegistry k.
Proof.
  intros He Ht. unfold dispatch. simpl. unfold dispatch_body.
  destruct e; try discriminate He; simpl;
    try (eexists; split; [reflexivity |]; simpl; rewrite length_app; simpl;
         repeat split; try reflexivity; lia).
  simpl in Ht.
  destruct (get BREATHING_PATTERNS patternId0); [| discriminate Ht |]; simpl;
    (eexists; split; [reflexivity |]; simpl; rewrite length_app; simpl;
     repeat split; try reflexivity; lia).
Qed.

Lemma dispatch_log_shape (host : Host) (e : KernelEvent) (k : Kernel) :
  throws e = false ->
  exists k' follow,
    dispatch host e k = Some k'
    /\ eventLog k' = eventLog k ++ e :: follow
    /\ (if is_tick e then follow_up_shape follow = true else follow = [])
    /\ length (notified k') = (length (notified k) + S (length follow))%nat
    /\ safetyRegistry k' = safetyRegistry k.
Proof.
  intros Ht. destruct (is_tick e) eqn:He.
  - destruct e; try discriminate He.
    destruct (tick_anatomy host dt ts k)
      as (k' & follow & D & L & Sh & N & R & _).
    exists k', follow. auto.
  - destruct (dispatch_flat_log host e k He Ht) as (k' & D & L & N & R).
    exists k', []. repeat split; auto. rewrite N. simpl. lia.
Qed.

(** ** The catalog *)

Lemma catalog_entries : map_Forall entry_ok BREATHING_PATTERNS.
Proof.
  intros key pat H. apply elem_of_map_to_list in H.
  let l := eval vm_compute in (map_to_list BREATHING_PATTERNS) in
  assert (E : map_to_list BREATHING_PATTERNS = l) by (vm_compute; reflexivity).
  rewrite E in H. clear E.
  repeat (apply elem_of_cons in H as [H | H];
          [injection H as -> ->; unfold entry_ok; simpl; repeat split; first [reflexivity | discriminate] |]).
  apply elem_of_nil in H. contradiction.
Qed.

Lemma catalog_lookup_id (key : string) (pat : BreathPattern) :
  BREATHING_PATTERNS !! key = Some pat -> BREATHING_PATTERNS !! id pat = Some pat.
Proof.
  intros H. destruct (catalog_entries key pat H) as [-> _]. exact H.
Qed.

(** ** Shape of a reachable state *)

Lemma dispatchN_flat_shape (host : Host) (e : KernelEvent) (k k' : Kernel) :
  is_tick e = false ->
  status_ok (state k) -> pattern_ok (state k) ->
  dispatchN 1 host e k = Some k' ->
  status_ok (state k') /\ pattern_ok (state k').
Proof.
  intros He Hs Hp. simpl. unfold dispatch_body.
  destruct k as [[st p ph el du cc sd b en] lg reg ntf].
  unfold status_ok, pattern_ok in *. simpl in *.
  destruct e; try discriminate He; simpl.
  - intros [= <-]. simpl. auto.
  - destruct (get BREATHING_PATTERNS patternId0) as [pat | |] eqn:E; simpl;
      [intros [= <-]; simpl | discriminate | intros [= <-]; simpl; auto].
    split; [exact I |]. split; [| reflexivity].
    eapply catalog_lookup_id, get_own_inv, E.
  - intros [= <-]. simpl. destruct p; simpl; [| auto]. split; [eauto | exact Hp].
  - intros [= <-]. simpl. split; [exact Hs |].
    destruct p as [pat |]; [| reflexivity]. destruct Hp as [Hc _]. auto.
  - intros [= <-]. simpl. auto.
  - intros [= <-]. simpl. destruct st; simpl; auto.
  - intros [= <-]. simpl. destruct st; simpl; auto.
  - intros [= <-]. simpl. auto.
  - intros [= <-]. simpl. auto.
Qed.

Lemma dispatch_shape (host : Host) (e : KernelEvent) (k k' : Kernel) :
  status_ok (state k) -> pattern_ok (state k) ->
  dispatch host e k = Some k' ->
  status_ok (state k') /\ pattern_ok (state k').
Proof.
  intros Hs Hp. destruct (is_tick e) eqn:He.
  - destruct e; try discriminate He.
    unfold dispatch. rewrite dispatchN_tick.
    destruct (handleTick _ _ _ _) as [k1 |] eqn:E; simpl; [| discriminate].
    intros [= <-]. simpl.
    revert E.
    apply (handleTick_rule (dispatchN 1 host) host
             (fun k => status_ok (state k) /\ pattern_ok (state k))).
    + intros k0 b0 el0 sd0 H. exact H.
    + intros k0 b0 H. exact H.
    + intros from to k0 k0' [H1 H2] E.
      eapply dispatchN_flat_shape; [| exact H1 | exact H2 | exact E]. reflexivity.
    + intros k0 k0' [H1 H2] E.
      eapply dispatchN_flat_shape; [| exact H1 | exact H2 | exact E]. reflexivity.
    + intros risk action k0 k0' [H1 H2] E.
      eapply dispatchN_flat_shape; [| exact H1 | exact H2 | exact E]. reflexivity.
    + split; assumption.
  - unfold dispatch. rewrite (dispatchN_flat 1 0) by exact He.
    apply dispatchN_flat_shape; assumption.
Qed.

Lemma reachable_shape (k : Kernel) :
  Reachable k -> status_ok (state k) /\ pattern_ok (state k).
Proof.
  induction 1 as [host k Hnew | c k k' Hk [IHs IHp] Hc].
  - unfold new, emit in Hnew. injection Hnew as <-.
    split; [exact I | reflexivity].
  - destruct c as [host e | registry]; simpl in Hc.
    + eapply dispatch_shape; eauto.
    + injection Hc as <-. split; assumption.
Qed.

(** ** Bounds *)

Lemma update_keeps_bounds (b : BeliefState) (obs : Observation) (isRunning : bool) :
  belief_bounded b -> 0 <= delta_time obs ->
  belief_bounded (update b obs isRunning).
Proof.
  intros ([Ha0 Ha1] & [Ht0 Ht1] & [Hr0 Hr1]) Hdt.
  unfold update, belief_bounded, unit_interval.
  destruct isRunning; simpl.
  - destruct (_ || _); simpl; repeat split; split_minmax; lra.
  - repeat split; split_minmax; lra.
Qed.

(** At rest every component of a bounded belief can only go down. *)
Lemma update_idle_decays (b : BeliefState) (obs : Observation) :
  belief_bounded b -> 0 <= delta_time obs ->
  arousal (update b obs false) <= arousal b
  /\ attention (update b obs false) <= attention b
  /\ rhythm_alignment (update b obs false) <= rhythm_alignment b.
Proof.
  intros ([Ha0 Ha1] & [Ht0 Ht1] & [Hr0 Hr1]) Hdt.
  unfold update. simpl. repeat split; split_minmax; lra.
Qed.

Lemma calculateEntropy_unit (b : BeliefState) : unit_interval (calculateEntropy b).
Proof.
  unfold calculateEntropy, unit_interval. split; split_minmax; lra.
Qed.

(** ** The guard as a condition *)

Lemma check_fires_iff (now : Z) (s : RuntimeState) (pat : BreathPattern)
    (registry : gmap string TraumaRecord) :
  pattern s = Some pat ->
  is_Some (HippocraticGuard.check now s registry)
  <-> trust_halt s pat registry \/ hyperventilating s pat.
Proof.
  intros Hp. unfold HippocraticGuard.check. rewrite Hp.
  pose proof (watchdog_fires s pat) as Hw.
  unfold trust_halt.
  destruct (registry !! id pat) as [record |] eqn:Er.
  - destruct (Qltb (resonance_score record) 0.3) eqn:E1.
    + destruct (Qgtb (entropy s) 0.8) eqn:E2.
      * split; [| eauto]. intros _. left. exists record.
        apply Qltb_lt in E1. apply Qgtb_gt in E2. auto.
      * destruct (_ && _ && _) eqn:Ew.
        -- split; [| eauto]. intros _. right. apply Hw. reflexivity.
        -- split; [intros [x Hx]; discriminate Hx |].
           intros [(r & [= <-] & _ & H) | H].
           ++ apply Qgtb_gt in H. congruence.
           ++ apply Hw in H. discriminate H.
    + destruct (_ && _ && _) eqn:Ew.
      * split; [| eauto]. intros _. right. apply Hw. reflexivity.
      * split; [intros [x Hx]; discriminate Hx |].
        intros [(r & [= <-] & H & _) | H].
        -- apply Qltb_lt in H. congruence.
        -- apply Hw in H. discriminate H.
  - destruct (_ && _ && _) eqn:Ew.
    + split; [| eauto]. intros _. right. apply Hw. reflexivity.
    + split; [intros [x Hx]; discriminate Hx |].
      intros [(r & Hr & _) | H]; [discriminate Hr |].
      apply Hw in H. discriminate H.
Qed.

(** ** Dispatch of RESUME_SESSION, as an equation *)

Lemma dispatch_resume (host : Host) (ts : Z) (k : Kernel) :
  dispatch host (RESUME_SESSION ts) k
  = Some (notify (with_state (fun s =>
      recalculateEntropy
        (if is_paused (status s) then set_status RUNNING s else s))
      (log (RESUME_SESSION ts) k))).
Proof. reflexivity. Qed.

(** ** Bounded belief *)

Lemma dispatch_keeps_bounds (host : Host) (e : KernelEvent) (k k' : Kernel) :
  belief_bounded (belief (state k)) ->
  forward_call (Dispatch host e) ->
  dispatch host e k = Some k' ->
  belief_bounded (belief (state k')).
Proof.
  intros Hb Hf. destruct (is_tick e) eqn:He.
  - destruct e; try discriminate He. simpl in Hf.
    destruct (tick_anatomy host dt ts k) as (k1 & follow & D & _ & _ & _ & _ & _ & B & _).
    rewrite D. intros [= <-]. rewrite B.
    apply update_keeps_bounds; assumption.
  - unfold dispatch. simpl. unfold dispatch_body.
    destruct Hb as ([Ha0 Ha1] & [Ht0 Ht1] & [Hr0 Hr1]).
    assert (Hk : belief_bounded (belief (state k))) by (repeat split; assumption).
    destruct e; try discriminate He; simpl;
      try (intros [= <-]; simpl; exact Hk).
    + destruct (get BREATHING_PATTERNS patternId0); simpl;
        [intros [= <-]; simpl | discriminate | intros [= <-]; simpl; exact Hk].
      repeat split; simpl; try assumption; discriminate.
    + intros [= <-]. simpl. destruct (pattern (state k)); exact Hk.
    + intros [= <-]. simpl. destruct (is_running (status (state k))); [| exact Hk].
      unfold belief_bounded, unit_interval. simpl. repeat split; lra.
    + intros [= <-]. simpl. destruct (is_paused (status (state k))); exact Hk.
Qed.

(** ** The engine bridge *)

Lemma follow_up_no_tick (follow : list KernelEvent) :
  follow_up_shape follow = true -> Forall tick_in_range follow.
Proof.
  intros H.
  destruct follow as [| e1 [| e2 [| e3 [| e4 l]]]]; simpl in H;
    repeat match goal with
    | e : KernelEvent |- _ => destruct e; simpl in H; try discriminate H
    end;
    repeat constructor.
Qed.

(** What one dispatch does to a log whose ticks are all in range. *)
Lemma dispatch_log_in_range (host : Host) (e : KernelEvent) (k k' : Kernel) :
  tick_in_range e -> Forall tick_in_range (eventLog k) ->
  dispatch host e k = Some k' ->
  Forall tick_in_range (eventLog k').
Proof.
  intros He Hl D.
  assert (Ht : throws e = false).
  { apply (proj1 (dispatch_returns_iff host e k)). rewrite D. eauto. }
  destruct (dispatch_log_shape host e k Ht) as (k1 & follow & D1 & L & Sh & _).
  rewrite D1 in D. injection D as <-. rewrite L.
  apply Forall_app. split; [exact Hl |]. constructor; [exact He |].
  destruct (is_tick e); [apply follow_up_no_tick, Sh | subst follow; constructor].
Qed.

Lemma run_single (host : Host) (e : KernelEvent) (k : Kernel) :
  run [Dispatch host e] k = dispatch host e k.
Proof.
  change (run [Dispatch host e] k) with (k1 ← dispatch host e k; Some k1).
  destruct (dispatch host e k); reflexivity.
Qed.

Lemma run_pair (host host' : Host) (e e' : KernelEvent) (k : Kernel) :
  run [Dispatch host e; Dispatch host' e'] k
  = k1 ← dispatch host e k; dispatch host' e' k1.
Proof.
  change (run [Dispatch host e; Dispatch host' e'] k)
    with (k1 ← dispatch host e k; run [Dispatch host' e'] k1).
  destruct (dispatch host e k) as [k1 |]; [| reflexivity].
  apply run_single.
Qed.

(** Every call of the hook is a run of kernel dispatches whose ticks, if
    any, are in range. *)
Lemma hook_call_as_run (c : HookCall) (st st' : Q * Kernel) :
  hook_call c st = Some st' ->
  exists cs,
    run cs (snd st) = Some (snd st')
    /\ Forall (fun c => match c with
                        | Dispatch _ e => tick_in_range e
                        | SetSafetyRegistry _ => False
                        end) cs.
Proof.
  destruct st as [lastTime k].
  destruct c as [host host' a pid | host a p | host frame]; unfold hook_call, fst, snd.
  - unfold BreathEngine.sessionEffect. destruct a.
    + rewrite <- run_pair.
      destruct (run _ k) as [k2 |] eqn:E; [| discriminate].
      intros [= <-]. eexists. split; [exact E | repeat constructor].
    + rewrite <- run_single.
      destruct (run _ k) as [k2 |] eqn:E; [| discriminate].
      intros [= <-]. eexists. split; [exact E | repeat constructor].
  - unfold BreathEngine.pauseEffect. destruct a; unfold negb.
    + destruct p; rewrite <- run_single;
        (destruct (run _ k) as [k2 |] eqn:E; [| discriminate]);
        intros [= <-]; eexists; (split; [exact E | repeat constructor]).
    + intros [= <-]. exists []. split; [reflexivity | constructor].
  - unfold BreathEngine.loop.
    destruct (Qgtb _ 0 && Qltb _ 1.0) eqn:Ec.
    + apply andb_true_iff in Ec as [E0 E1].
      apply Qgtb_gt in E0. apply Qltb_lt in E1.
      rewrite <- run_single.
      destruct (run _ k) as [k2 |] eqn:E; [| discriminate].
      intros [= <-]. eexists. split; [exact E |].
      repeat constructor; [exact E0 |].
      eapply Qlt_le_trans; [exact E1 | discriminate].
    + intros [= <-]. exists []. split; [reflexivity | constructor].
Qed.

Lemma run_in_range (cs : list Call) (k k' : Kernel) :
  Forall (fun c => match c with
                   | Dispatch _ e => tick_in_range e
                   | SetSafetyRegistry _ => False
                   end) cs ->
  run cs k = Some k' ->
  (Forall tick_in_range (eventLog k) -> Forall tick_in_range (eventLog k'))
  /\ (belief_bounded (belief (state k)) -> belief_bounded (belief (state k')))
  /\ safetyRegistry k' = safetyRegistry k.
Proof.
  intros Hcs. revert k.
  induction Hcs as [| c cs Hc _ IH]; intros k.
  - intros [= <-]. auto.
  - change (run (c :: cs) k) with (k1 ← call c k; run cs k1).
    destruct (call c k) as [k1 |] eqn:E; [| discriminate].
    change (Some k1 ≫= run cs) with (run cs k1). intros Hrun.
    destruct (IH k1 Hrun) as (IHl & IHb & IHr).
    destruct c as [host e | registry]; [| contradiction].
    unfold call in E.
    assert (Ht : throws e = false).
    { apply (proj1 (dispatch_returns_iff host e k)). rewrite E. eauto. }
    destruct (dispatch_log_shape host e k Ht) as (k2 & follow & D & _ & _ & _ & R).
    rewrite D in E. injection E as ->.
    split; [| split].
    + intros Hl. apply IHl. eapply dispatch_log_in_range; eauto.
    + intros Hb. apply IHb. eapply dispatch_keeps_bounds; [exact Hb | | exact D].
      destruct e; simpl; try exact I. apply Qlt_le_weak, Hc.
    + rewrite IHr. exact R.
Qed.

(** ** The settings store *)

Section Register.
Import SettingsStore.
Variables (env : Env) (durationSec : Q) (pid : string) (cycles : Q).
Variables (st : SettingsState) (k : Kernel).

(** The record the update of the registry starts from. *)
Let prior : TraumaRecord :=
  match traumaRegistry (userSettings st) !! pid with
  | Some r => r
  | None =>
      {| patternId := pid; total_exposure_seconds := 0; adverse_events := 0;
         resonance_score := 0.5; last_updated := nowCreated env |}
  end.

Let success : bool := Qgtb durationSec 45 && Qltb (entropy (state k)) 0.5.

Lemma register_registry :
  traumaRegistry (userSettings
    (fst (registerSessionComplete env durationSec pid cycles st k)))
  = <[pid :=
        {| patternId := patternId prior;
           total_exposure_seconds := total_exposure_seconds prior + durationSec;
           adverse_events :=
             if success then adverse_events prior else adverse_events prior + 1;
           resonance_score :=
             if success then Qmin 1.0 (resonance_score prior + 0.05)
             else Qmax 0.0 (resonance_score prior - 0.1);
           last_updated := nowUpdated env |}]>
      (traumaRegistry (userSettings st)).
Proof.
  unfold registerSessionComplete, prior, success, getState.
  destruct (Qgtb durationSec 30);
    [destruct (String.eqb _ _); [| destruct (String.eqb _ _)] |];
    simpl; destruct (Qgtb durationSec 45 && _); reflexivity.
Qed.

Lemma register_kernel :
  snd (registerSessionComplete env durationSec pid cycles st k)
  = setSafetyRegistry
      (traumaRegistry (userSettings
         (fst (registerSessionComplete env durationSec pid cycles st k)))) k.
Proof.
  unfold registerSessionComplete, getState.
  destruct (Qgtb durationSec 30);
    [destruct (String.eqb _ _); [| destruct (String.eqb _ _)] |];
    reflexivity.
Qed.

Lemma register_history :
  history (fst (registerSessionComplete env durationSec pid cycles st k))
  = if Qgtb durationSec 10
    then take 100
           ({| SessionHistoryItem.id := pretty (nowId env) +:+ randomDigits env;
               SessionHistoryItem.timestamp := nowTimestamp env;
               SessionHistoryItem.durationSec := durationSec;
               SessionHistoryItem.patternId := pid;
               SessionHistoryItem.cycles := cycles;
               SessionHistoryItem.finalBelief := belief (state k) |}
            :: history st)
    else history st.
Proof.
  unfold registerSessionComplete, getState.
  destruct (Qgtb durationSec 30);
    [destruct (String.eqb _ _); [| destruct (String.eqb _ _)] |];
    reflexivity.
Qed.

Lemma register_streak :
  let st' := fst (registerSessionComplete env durationSec pid cycles st k) in
  (streak (userSettings st'), lastBreathDate (userSettings st'))
  = if Qgtb durationSec 30 then
      if String.eqb (lastBreathDate (userSettings st)) (getTodayString env)
      then (streak (userSettings st), lastBreathDate (userSettings st))
      else if String.eqb (lastBreathDate (userSettings st)) (getYesterdayString env)
      then (streak (userSettings st) + 1, getTodayString env)
      else (1, getTodayString env)
    else (streak (userSettings st), lastBreathDate (userSettings st)).
Proof.
  unfold registerSessionComplete, getState.
  destruct (Qgtb durationSec 30);
    [destruct (String.eqb _ _); [| destruct (String.eqb _ _)] |];
    reflexivity.
Qed.

End Register.

Lemma register_record_ok (s : Session) (st : SettingsStore.SettingsState) :
  map_Forall record_ok (registry_of st) ->
  map_Forall record_ok (registry_of (register s st)).
Proof.
  intros Hst. unfold registry_of, register. rewrite register_registry.
  apply map_Forall_insert_2; [| exact Hst].
  set (reg := SettingsStore.traumaRegistry (SettingsStore.userSettings st)) in *.
  set (prior := match reg !! s_patternId s with
                | Some r => r
                | None =>
                    {| patternId := s_patternId s; total_exposure_seconds := 0;
                       adverse_events := 0; resonance_score := 0.5;
                       last_updated := SettingsStore.nowCreated (s_env s) |}
                end).
  assert (Hprior : record_ok (s_patternId s) prior).
  { unfold prior. destruct (reg !! s_patternId s) as [r |] eqn:E.
    - exact (Hst _ _ E).
    - split; [reflexivity |]. split; [split; discriminate |].
      split; [exists 0%nat; reflexivity | discriminate]. }
  clearbody prior. revert Hprior. generalize prior. clear prior.
  intros r (Hid & [Hs0 Hs1] & (n & Hn) & Hlow).
  unfold record_ok, unit_interval. simpl.
  split; [exact Hid |].
  destruct (Qgtb (s_durationSec s) 45 && _).
  - split; [split; split_minmax; lra |].
    split; [exists n; exact Hn |]. split_minmax; lra.
  - split; [split; split_minmax; lra |]. split.
    + exists (S n). rewrite Hn, Nat2Z.inj_succ. unfold Z.succ.
      rewrite inject_Z_plus. reflexivity.
    + split_minmax; lra.
Qed.

Lemma registerAll_records_ok (sessions : list Session) (st : SettingsStore.SettingsState) :
  map_Forall record_ok (registry_of st) ->
  map_Forall record_ok (registry_of (registerAll sessions st)).
Proof.
  revert st. induction sessions as [| s rest IH]; intros st Hst; simpl.
  - exact Hst.
  - apply IH, register_record_ok, Hst.
Qed.

Lemma initial_records_ok : map_Forall record_ok (registry_of SettingsStore.initialState).
Proof. apply map_Forall_empty. Qed.

Lemma register_history_length (s : Session) (st : SettingsStore.SettingsState) :
  length (SettingsStore.history (register s st))
  = if recorded s
    then Nat.min 100 (S (length (SettingsStore.history st)))
    else length (SettingsStore.history st).
Proof.
  unfold register, recorded. rewrite register_history.
  destruct (Qgtb (s_durationSec s) 10); [| reflexivity].
  rewrite length_take. reflexivity.
Qed.

Lemma min_cap (n m : nat) :
  Nat.min 100 (Nat.min 100 (S n) + m) = Nat.min 100 (n + S m).
Proof. lia. Qed.

Lemma registerAll_history_length (sessions : list Session)
    (st : SettingsStore.SettingsState) :
  (length (SettingsStore.history st) <= 100)%nat ->
  length (SettingsStore.history (registerAll sessions st))
  = Nat.min 100 (length (SettingsStore.history st)
                 + length (List.filter recorded sessions)).
Proof.
  revert st. induction sessions as [| s rest IH]; intros st Hst.
  - cbn [registerAll List.filter length]. rewrite Nat.add_0_r.
    symmetry. apply Nat.min_r, Hst.
  - cbn [registerAll List.filter].
    pose proof (register_history_length s st) as Hl.
    assert (Hle : (length (SettingsStore.history (register s st)) <= 100)%nat).
    { rewrite Hl. destruct (recorded s); [apply Nat.le_min_l | exact Hst]. }
    rewrite (IH _ Hle), Hl.
    destruct (recorded s); cbn [length]; [apply min_cap | reflexivity].
Qed.

(** ** Date strings *)

Lemma append_empty (s : string) : EmptyString +:+ s = s.
Proof. reflexivity. Qed.

Lemma append_String (c : ascii) (a s : string) :
  String c a +:+ s = String c (a +:+ s).
Proof. reflexivity. Qed.

Lemma no_dash_app (a b : string) :
  no_dash (a +:+ b) = no_dash a && no_dash b.
Proof.
  induction a as [| c a IH]; [reflexivity |].
  rewrite append_String. cbn [no_dash]. rewrite IH, andb_assoc. reflexivity.
Qed.

Lemma pretty_N_go_no_dash (x : N) (s : string) :
  no_dash s = true -> no_dash (pretty_N_go x s) = true.
Proof.
  revert s. induction (N.lt_wf_0 x) as [x _ IH]. intros s Hs.
  assert (Hx : (x = 0 \/ 0 < x)%N) by lia. destruct Hx as [-> | Hx].
  - rewrite pretty_N_go_0. exact Hs.
  - rewrite pretty_N_go_step by exact Hx. apply IH.
    + apply N.div_lt; [exact Hx | reflexivity].
    + cbn [no_dash]. rewrite Hs, andb_true_r.
      unfold pretty_N_char. repeat case_match; reflexivity.
Qed.

Lemma pretty_Z_no_dash (z : Z) : (0 <= z)%Z -> no_dash (pretty z) = true.
Proof.
  destruct z as [| p | p]; intros Hz; [reflexivity | | lia].
  unfold pretty, pretty_Z, pretty, pretty_positive, pretty, pretty_N.
  destruct (decide (N.pos p = 0%N)); [reflexivity |].
  apply pretty_N_go_no_dash. reflexivity.
Qed.

Lemma padStart2_no_dash (s : string) :
  no_dash s = true -> no_dash (SettingsStore.padStart2 s) = true.
Proof.
  intros Hs. unfold SettingsStore.padStart2.
  destruct (String.length s) as [| [| n]]; cbv beta iota; [| | exact Hs];
    rewrite no_dash_app, Hs; reflexivity.
Qed.

(** Two strings cut at their first dash. *)
Lemma split_at_dash (a b r1 r2 : string) :
  no_dash a = true -> no_dash b = true ->
  a +:+ "-" +:+ r1 = b +:+ "-" +:+ r2 -> a = b /\ r1 = r2.
Proof.
  revert b. induction a as [| c a IH]; intros [| c' b] Ha Hb H;
    repeat (rewrite append_empty in H || rewrite append_String in H).
  - injection H as ->. split; reflexivity.
  - injection H as <- _. cbn in Hb. discriminate.
  - injection H as -> _. cbn in Ha. discriminate.
  - injection H as -> H.
    cbn [no_dash] in Ha, Hb.
    apply andb_true_iff in Ha as [_ Ha]. apply andb_true_iff in Hb as [_ Hb].
    destruct (IH b Ha Hb H) as [-> ->]. split; reflexivity.
Qed.

Lemma two_digits_padStart2 (z : Z) :
  (0 <= z <= 31)%Z -> two_digits (SettingsStore.padStart2 (pretty z)) = Some z.
Proof.
  intros Hz. rewrite <- (Z2Nat.id z) by lia.
  assert (Hn : (Z.to_nat z < 32)%nat) by lia.
  generalize dependent (Z.to_nat z). clear Hz. intros n Hn.
  do 32 (destruct n as [| n]; [vm_compute; reflexivity |]). lia.
Qed.

Lemma dateString_nonempty (d : SettingsStore.LocalDate) :
  SettingsStore.dateString d <> EmptyString.
Proof.
  unfold SettingsStore.dateString.
  destruct (pretty (SettingsStore.fullYear d)); discriminate.
Qed.

(** ** Streak *)

Lemma register_streak_ok (s : Session) (st : SettingsStore.SettingsState) (m : nat) :
  streak_ok m st ->
  streak_ok (if counted s then S m else m) (register s st).
Proof.
  intros (n & Hn & Hm & Hz). unfold streak_ok, register, counted.
  pose proof (register_streak (s_env s) (s_durationSec s) (s_patternId s)
                (s_cycles s) st (s_kernel s)) as H.
  cbv zeta in H.
  destruct (Qgtb (s_durationSec s) 30).
  - destruct (String.eqb _ _) eqn:E1 in H.
    + injection H as -> ->. exists n.
      split; [exact Hn |]. split; [lia | exact Hz].
    + destruct (String.eqb _ _) in H; injection H as -> ->.
      * exists (S n). rewrite Hn. split.
        { rewrite Nat2Z.inj_succ. unfold Z.succ, inject_Z, Qplus. cbn.
          rewrite Z.mul_1_r. reflexivity. }
        split; [lia |]. split; [discriminate |].
        intros E. destruct (dateString_nonempty _ E).
      * exists 1%nat. split; [reflexivity |]. split; [lia |].
        split; [discriminate |].
        intros E. destruct (dateString_nonempty _ E).
  - injection H as -> ->. exists n. split; [exact Hn |]. split; [exact Hm | exact Hz].
Qed.

Lemma registerAll_streak_ok (sessions : list Session)
    (st : SettingsStore.SettingsState) (m : nat) :
  streak_ok m st ->
  streak_ok (m + length (List.filter counted sessions)) (registerAll sessions st).
Proof.
  revert st m. induction sessions as [| s rest IH]; intros st m Hst.
  - cbn [registerAll List.filter length]. rewrite Nat.add_0_r. exact Hst.
  - cbn [registerAll List.filter].
    apply (register_streak_ok s) in Hst. apply IH in Hst.
    destruct (counted s); cbn [length];
      [rewrite Nat.add_succ_r; exact Hst | exact Hst].
Qed.

(** ** Pattern lock *)

Lemma isPatternLocked_mono (h h' : list SettingsStore.SessionHistoryItem.t)
    (p : BreathPattern) :
  (Nat.min 10 (length h) <= length h')%nat ->
  Footer.isPatternLocked h p = false ->
  Footer.isPatternLocked h' p = false.
Proof.
  unfold Footer.isPatternLocked. intros Hl.
  destruct (tier p); [reflexivity | |];
    rewrite !Nat.ltb_ge; lia.
Qed.

(** * The claims *)

(** ** C1: the safety guard *)

(** C1.  For a state with a loaded pattern and any registry, [check]
    returns the preventive halt (risk 0.9, action HALT_PREVENTATIVE) when
    the registry holds a record for the active pattern with resonance score
    below 0.3 and the entropy exceeds 0.8; otherwise the forced cooldown
    (risk 0.8, action COOLDOWN_FORCED) when the pattern's tier is 2, the
    cycle count exceeds 30 and arousal exceeds 0.9; otherwise nothing.  The
    result is at most one event, and guard A is the one that wins when both
    match. *)
Theorem check_guards (now : Z) (s : RuntimeState) (pat : BreathPattern)
    (registry : gmap string TraumaRecord) :
  pattern s = Some pat ->
  (trust_halt s pat registry ->
     HippocraticGuard.check now s registry
     = Some (SAFETY_INTERVENTION 0.9 "HALT_PREVENTATIVE" now))
  /\ (~ trust_halt s pat registry -> hyperventilating s pat ->
     HippocraticGuard.check now s registry
     = Some (SAFETY_INTERVENTION 0.8 "COOLDOWN_FORCED" now))
  /\ (~ trust_halt s pat registry -> ~ hyperventilating s pat ->
     HippocraticGuard.check now s registry = None).
Proof.
  intros Hp. unfold HippocraticGuard.check. rewrite Hp.
  pose proof (watchdog_fires s pat) as Hw.
  assert (Ha : forall record, registry !! id pat = Some record ->
                 Qltb (resonance_score record) 0.3 = true ->
                 Qgtb (entropy s) 0.8 = true -> trust_halt s pat registry).
  { intros record Hr H1 H2. exists record.
    apply Qltb_lt in H1. apply Qgtb_gt in H2. auto. }
  repeat split.
  - intros (record & -> & Hscore & Hent).
    apply Qltb_lt in Hscore. apply Qgtb_gt in Hent.
    rewrite Hscore, Hent. reflexivity.
  - intros Hna Hb. apply Hw in Hb. rewrite Hb.
    destruct (registry !! id pat) as [record |] eqn:Er; [| reflexivity].
    destruct (Qltb (resonance_score record) 0.3) eqn:E1; [| reflexivity].
    destruct (Qgtb (entropy s) 0.8) eqn:E2; [| reflexivity].
    exfalso. eauto.
  - intros Hna Hnb.
    destruct (_ && _ && _) eqn:Ew; [exfalso; apply Hnb, Hw; reflexivity |].
    destruct (registry !! id pat) as [record |] eqn:Er; [| reflexivity].
    destruct (Qltb (resonance_score record) 0.3) eqn:E1; [| reflexivity].
    destruct (Qgtb (entropy s) 0.8) eqn:E2; [| reflexivity].
    exfalso. eauto.
Qed.

(** Both guards match on [panicking] under [distrust]: guard A wins.  With
    an empty registry guard B fires. *)
Lemma check_guards_witness :
  pattern panicking = Some coherence
  /\ HippocraticGuard.check 7 panicking distrust
     = Some (SAFETY_INTERVENTION 0.9 "HALT_PREVENTATIVE" 7)
  /\ HippocraticGuard.check 7 panicking ∅
     = Some (SAFETY_INTERVENTION 0.8 "COOLDOWN_FORCED" 7).
Proof.
  split; [reflexivity |]. split.
  - apply (check_guards 7 panicking coherence distrust eq_refl).
    exists {| patternId := "coherence"; total_exposure_seconds := 120;
              adverse_events := 4; resonance_score := 0.1; last_updated := 0 |}.
    split; [vm_compute; reflexivity |]. split; reflexivity.
  - apply (check_guards 7 panicking coherence ∅ eq_refl).
    + intros (record & Hr & _). vm_compute in Hr. discriminate Hr.
    + split; [reflexivity |]. split; reflexivity.
Defined.

(** ** C2: entropy is a function of belief *)

Lemma entropy_current_formula (s : RuntimeState) :
  entropy_current s -> entropy_formula s.
Proof.
  unfold entropy_current, entropy_formula. intros ->.
  apply calculateEntropy_clamp01.
Qed.

(** The state the constructor starts from, before it emits BOOT. *)
Lemma initial_entropy_formula : entropy_formula getInitialState.
Proof. reflexivity. Qed.

(** C2.  In every kernel reachable from the constructor through dispatches
    (and registry replacements), the entropy field is the clamp to the
    unit interval of arousal * (1 - 0.8 * rhythm_alignment); so is the
    entropy of every snapshot that any dispatch, external or raised by the
    kernel itself, has sent to the subscribers. *)
Theorem entropy_follows_belief (k : Kernel) :
  Reachable k ->
  entropy_formula (state k) /\ Forall entropy_formula (notified k).
Proof.
  intros Hk. destruct (reachable_current k Hk) as [Hs Hn]. split.
  - apply entropy_current_formula, Hs.
  - unfold snapshots_current in Hn.
    induction Hn as [| s l Hs' _ IH]; constructor.
    + apply entropy_current_formula, Hs'.
    + exact IH.
Qed.

(** A paused box session: three dispatches after the constructor. *)
Lemma entropy_follows_belief_witness :
  exists k, run paused_box_session fresh = Some k
    /\ entropy_formula (state k) /\ Forall entropy_formula (notified k).
Proof.
  eexists. split; [vm_compute; reflexivity |].
  apply entropy_follows_belief.
  apply (run_reachable paused_box_session fresh); [exact fresh_reachable |].
  vm_compute. reflexivity.
Defined.

(** ** C3: one cycle of the box pattern *)

(** C3.  From any kernel with an empty trust registry, load [box] and start
    the session; then, with the document visible throughout, four ticks of
    4.0 seconds log exactly: a transition inhale to holdIn, a transition
    holdIn to exhale, a transition exhale to holdOut, each with no cycle
    event, and a transition holdOut to inhale followed by one
    CYCLE_COMPLETE with count 1. *)
Theorem box_cycle (k : Kernel) (n1 n2 n3 n4 n5 n6 t1 t2 t3 t4 t5 t6 : Z) :
  safetyRegistry k = ∅ ->
  exists k2 k3 k4 k5 k6,
    run [Dispatch (foreground n1) (LOAD_PROTOCOL "box" t1);
         Dispatch (foreground n2) (START_SESSION t2)] k = Some k2
    /\ status (state k2) = RUNNING /\ phase (state k2) = inhale
    /\ dispatch (foreground n3) (TICK 4.0 t3) k2 = Some k3
    /\ eventLog k3 = eventLog k2 ++ [TICK 4.0 t3; PHASE_TRANSITION inhale holdIn n3]
    /\ phase (state k3) = holdIn
    /\ dispatch (foreground n4) (TICK 4.0 t4) k3 = Some k4
    /\ eventLog k4 = eventLog k3 ++ [TICK 4.0 t4; PHASE_TRANSITION holdIn exhale n4]
    /\ phase (state k4) = exhale
    /\ dispatch (foreground n5) (TICK 4.0 t5) k4 = Some k5
    /\ eventLog k5 = eventLog k4 ++ [TICK 4.0 t5; PHASE_TRANSITION exhale holdOut n5]
    /\ phase (state k5) = holdOut
    /\ dispatch (foreground n6) (TICK 4.0 t6) k5 = Some k6
    /\ eventLog k6 = eventLog k5 ++ [TICK 4.0 t6; PHASE_TRANSITION holdOut inhale n6;
                                     CYCLE_COMPLETE 1 n6]
    /\ phase (state k6) = inhale
    /\ cycleCount (state k6) = 1
    /\ status (state k6) = RUNNING.
Proof.
  intros Hreg.
  assert (Htier : tier box <> Tier2) by discriminate.
  (* load and start *)
  eexists. simpl run.
  rewrite (dispatch_load_resolved _ _ _ _ box catalog_box). simpl mbind.
  match goal with |- context [Some ?k = Some _] => set (k2 := k) end.
  assert (R2 : safetyRegistry k2 !! id box = None).
  { simpl. rewrite Hreg. apply lookup_empty. }
  (* first tick *)
  destruct (dispatch_tick_phase_end (foreground n3) 4.0 t3 k2 box)
    as (k3 & D3 & L3 & S3 & P3 & Ph3 & El3 & Du3 & C3 & R3);
    [reflexivity | reflexivity | discriminate | exact R2 | exact Htier |].
  rewrite <- R3 in R2. simpl in L3, Ph3, Du3, C3.
  (* second tick *)
  destruct (dispatch_tick_phase_end (foreground n4) 4.0 t4 k3 box)
    as (k4 & D4 & L4 & S4 & P4 & Ph4 & El4 & Du4 & C4 & R4);
    [exact S3 | exact P3 | rewrite El3, Du3; discriminate | exact R2 | exact Htier |].
  rewrite <- R4 in R2. rewrite Ph3 in L4, Ph4, Du4, C4.
  simpl in L4, Ph4, Du4, C4.
  (* third tick *)
  destruct (dispatch_tick_phase_end (foreground n5) 4.0 t5 k4 box)
    as (k5 & D5 & L5 & S5 & P5 & Ph5 & El5 & Du5 & C5 & R5);
    [exact S4 | exact P4 | rewrite El4, Du4; discriminate | exact R2 | exact Htier |].
  rewrite <- R5 in R2. rewrite Ph4 in L5, Ph5, Du5, C5.
  simpl in L5, Ph5, Du5, C5.
  (* fourth tick *)
  destruct (dispatch_tick_phase_end (foreground n6) 4.0 t6 k5 box)
    as (k6 & D6 & L6 & S6 & P6 & Ph6 & El6 & Du6 & C6 & R6);
    [exact S5 | exact P5 | rewrite El5, Du5; discriminate | exact R2 | exact Htier |].
  rewrite Ph5 in L6, Ph6, Du6, C6.
  simpl in L6, Ph6, Du6, C6.
  exists k3, k4, k5, k6.
  split; [reflexivity |].
  split; [reflexivity |]. split; [reflexivity |].
  split; [exact D3 |]. split; [exact L3 |]. split; [exact Ph3 |].
  split; [exact D4 |]. split; [exact L4 |]. split; [exact Ph4 |].
  split; [exact D5 |]. split; [exact L5 |]. split; [exact Ph5 |].
  split; [exact D6 |].
  split; [rewrite L6, C5, C4, C3; reflexivity |].
  split; [exact Ph6 |].
  split; [rewrite C6, C5, C4, C3; reflexivity | exact S6].
Qed.

Lemma box_cycle_witness :
  exists k2 k6,
    run [Dispatch (foreground 1) (LOAD_PROTOCOL "box" 1);
         Dispatch (foreground 2) (START_SESSION 2)] fresh = Some k2
    /\ run [Dispatch (foreground 3) (TICK 4.0 3);
            Dispatch (foreground 4) (TICK 4.0 4);
            Dispatch (foreground 5) (TICK 4.0 5);
            Dispatch (foreground 6) (TICK 4.0 6)] k2 = Some k6
    /\ eventLog k6
       = [BOOT 0; LOAD_PROTOCOL "box" 1; START_SESSION 2;
          TICK 4.0 3; PHASE_TRANSITION inhale holdIn 3;
          TICK 4.0 4; PHASE_TRANSITION holdIn exhale 4;
          TICK 4.0 5; PHASE_TRANSITION exhale holdOut 5;
          TICK 4.0 6; PHASE_TRANSITION holdOut inhale 6; CYCLE_COMPLETE 1 6].
Proof.
  destruct (box_cycle fresh 1 2 3 4 5 6 1 2 3 4 5 6 eq_refl)
    as (k2 & k3 & k4 & k5 & k6 & H2 & _ & _ & D3 & L3 & _ & D4 & L4 & _
        & D5 & L5 & _ & D6 & L6 & _).
  exists k2, k6. split; [exact H2 |]. split.
  - simpl. rewrite D3. simpl. rewrite D4. simpl. rewrite D5. simpl. rewrite D6. reflexivity.
  - rewrite L6, L5, L4, L3.
    vm_compute in H2. injection H2 as <-. reflexivity.
Defined.

(** ** C4: starting a session *)

(** A paused box session is set running again by START_SESSION. *)
Lemma start_resumes_paused_session : ~ start_only_from_idle.
Proof.
  intros H.
  destruct (run paused_box_session fresh) as [k |] eqn:Hk;
    [| vm_compute in Hk; discriminate Hk].
  pose proof (run_reachable _ _ _ fresh_reachable Hk) as Rk.
  destruct (dispatch_total (foreground 4) (START_SESSION 4) k eq_refl) as [k' Hk'].
  specialize (H (foreground 4) 4%Z k k' Rk Hk').
  vm_compute in Hk. injection Hk as <-.
  vm_compute in Hk'. injection Hk' as <-.
  simpl in H. discriminate H.
Qed.

Lemma start_state (host : Host) (ts : Z) (k : Kernel) :
  entropy_current (state k) ->
  exists k',
    dispatch host (START_SESSION ts) k = Some k'
    /\ eventLog k' = eventLog k ++ [START_SESSION ts]
    /\ state k' = match pattern (state k) with
                  | Some _ => set_status RUNNING (state k)
                  | None => state k
                  end.
Proof.
  intros Hc. rewrite dispatch_start. eexists. split; [reflexivity |].
  split; [reflexivity |]. simpl.
  apply recalculateEntropy_id.
  destruct (pattern (state k)); exact Hc.
Qed.

(** C4, amended.  Dispatching START_SESSION sets the status to RUNNING
    whenever a pattern is loaded, whatever the current status, and changes
    no other field; with no pattern loaded it leaves the state unchanged.
    The event is logged in both cases. *)
Theorem start_session (host : Host) (ts : Z) (k : Kernel) :
  Reachable k ->
  exists k',
    dispatch host (START_SESSION ts) k = Some k'
    /\ eventLog k' = eventLog k ++ [START_SESSION ts]
    /\ state k' = match pattern (state k) with
                  | Some _ => set_status RUNNING (state k)
                  | None => state k
                  end.
Proof. intros Hk. apply start_state, reachable_current, Hk. Qed.

(** Without a pattern nothing changes; with [box] loaded the session runs. *)
Lemma start_session_witness :
  (exists k',
     dispatch (foreground 1) (START_SESSION 1) fresh = Some k'
     /\ eventLog k' = [BOOT 0; START_SESSION 1]
     /\ state k' = state fresh)
  /\ (exists k',
     dispatch (foreground 2) (START_SESSION 2) loaded_box = Some k'
     /\ eventLog k' = eventLog loaded_box ++ [START_SESSION 2]
     /\ state k' = set_status RUNNING (state loaded_box)).
Proof.
  split.
  - apply (start_session (foreground 1) 1 fresh).
    exact (Reachable_new (foreground 0) fresh eq_refl).
  - apply (start_session (foreground 2) 2 loaded_box).
    apply (run_reachable loaded_box_session fresh); [| vm_compute; reflexivity].
    exact (Reachable_new (foreground 0) fresh eq_refl).
Defined.

(** ** C5: the belief update stays within bounds *)

(** C5.  For every belief vector (three components in the unit interval),
    every observation with a non-negative delta time and both values of the
    running flag, the three components of the updated belief lie in the
    unit interval. *)
Theorem update_bounded (b : BeliefState) (obs : Observation) (isRunning : bool) :
  belief_bounded b -> 0 <= delta_time obs ->
  belief_bounded (update b obs isRunning).
Proof.
  intros ([Ha0 Ha1] & [Ht0 Ht1] & [Hr0 Hr1]) Hdt.
  unfold update, belief_bounded, unit_interval.
  destruct isRunning; simpl.
  - destruct (_ || _); simpl;
      repeat split; split_minmax; lra.
  - repeat split; split_minmax; lra.
Qed.

Lemma update_bounded_witness :
  belief_bounded
    (update {| arousal := 0.2; attention := 0.5; rhythm_alignment := 0 |}
       {| timestamp := 0; user_interaction := Some pause;
          visibilty_state := hidden; delta_time := 4 |} true).
Proof.
  apply update_bounded.
  - unfold belief_bounded, unit_interval. simpl.
    repeat split; discriminate.
  - discriminate.
Defined.

(** ** C6: loading an unknown pattern *)




(** ** C7: user interruption *)

Lemma interruption_state (host : Host) (kind : InterruptionKind) (ts : Z) (k : Kernel) :
  entropy_current (state k) ->
  exists k',
    dispatch host (USER_INTERRUPTION kind ts) k = Some k'
    /\ entropy_current (state k')
    /\ match status (state k) with
       | RUNNING =>
           status (state k') = PAUSED
           /\ attention (belief (state k')) = attention (belief (state k)) * 0.8
           /\ rhythm_alignment (belief (state k'))
              = rhythm_alignment (belief (state k)) * 0.5
           /\ arousal (belief (state k')) = arousal (belief (state k))
           /\ pattern (state k') = pattern (state k)
           /\ phase (state k') = phase (state k)
           /\ phaseElapsed (state k') = phaseElapsed (state k)
           /\ phaseDuration (state k') = phaseDuration (state k)
           /\ cycleCount (state k') = cycleCount (state k)
           /\ sessionDuration (state k') = sessionDuration (state k)
       | _ => state k' = state k
       end.
Proof.
  intros Hc. rewrite dispatch_interruption. eexists. split; [reflexivity |].
  split; [apply recalculateEntropy_current |].
  simpl. destruct (status (state k)); simpl;
    try (apply recalculateEntropy_id, Hc).
  repeat split; reflexivity.
Qed.

(** C7.  In a reachable kernel, USER_INTERRUPTION while RUNNING sets the
    status to PAUSED, multiplies attention by 0.8 and rhythm alignment by
    0.5 and keeps everything else but the derived entropy; a further
    USER_INTERRUPTION then changes nothing, so the penalty is applied once.
    In any status other than RUNNING (PAUSED included) the state is left
    exactly as it was. *)
Theorem user_interruption (host : Host) (kind : InterruptionKind) (ts : Z) (k : Kernel) :
  Reachable k ->
  exists k',
    dispatch host (USER_INTERRUPTION kind ts) k = Some k'
    /\ match status (state k) with
       | RUNNING =>
           status (state k') = PAUSED
           /\ attention (belief (state k')) = attention (belief (state k)) * 0.8
           /\ rhythm_alignment (belief (state k'))
              = rhythm_alignment (belief (state k)) * 0.5
           /\ arousal (belief (state k')) = arousal (belief (state k))
           /\ pattern (state k') = pattern (state k)
           /\ phase (state k') = phase (state k)
           /\ phaseElapsed (state k') = phaseElapsed (state k)
           /\ phaseDuration (state k') = phaseDuration (state k)
           /\ cycleCount (state k') = cycleCount (state k)
           /\ sessionDuration (state k') = sessionDuration (state k)
           /\ forall host' kind' ts', exists k'',
                dispatch host' (USER_INTERRUPTION kind' ts') k' = Some k''
                /\ state k'' = state k'
       | _ => state k' = state k
       end.
Proof.
  intros Hk. apply reachable_current in Hk as [Hc _].
  destruct (interruption_state host kind ts k Hc) as (k' & D & Hc' & H).
  exists k'. split; [exact D |].
  destruct (status (state k)); try exact H.
  destruct H as (Hs & Ha & Hr & Har & Hp & Hph & Hel & Hdu & Hcc & Hsd).
  do 10 (split; [assumption |]).
  intros host' kind' ts'.
  destruct (interruption_state host' kind' ts' k' Hc') as (k'' & D' & _ & H').
  exists k''. split; [exact D' |]. rewrite Hs in H'. exact H'.
Qed.

(** Pausing the running box session: attention 0.5 becomes 0.5 * 0.8. *)
Lemma user_interruption_witness :
  status (state running_box) = RUNNING
  /\ exists k',
       dispatch (foreground 3) (USER_INTERRUPTION kind_pause 3) running_box = Some k'
       /\ status (state k') = PAUSED
       /\ attention (belief (state k')) = 0.5 * 0.8
       /\ rhythm_alignment (belief (state k')) = 0.0 * 0.5.
Proof.
  split; [reflexivity |].
  destruct (user_interruption (foreground 3) kind_pause 3 running_box)
    as (k' & D & H).
  - apply (run_reachable running_box_session fresh); [| vm_compute; reflexivity].
    exact (Reachable_new (foreground 0) fresh eq_refl).
  - simpl in H. destruct H as (Hs & Ha & Hr & _).
    exists k'. repeat split; assumption.
Defined.

(** ** C8: the cycle count *)

(** C8.  From the state before a dispatch to the state after it the cycle
    count does not go down, the dispatches a tick raises on the way
    included (the counts of the snapshots sent ascend from the count before
    to the count after), except that a LOAD_PROTOCOL that resolves sets it
    to 0; an unresolved one keeps it.  This is for the events a client
    dispatches: a CYCLE_COMPLETE is raised by the kernel alone, and a load
    that throws leaves no state to compare. *)
Theorem count_step (host : Host) (e : KernelEvent) (k : Kernel) :
  is_cycle e = false -> throws e = false ->
  exists k',
    dispatch host e k = Some k'
    /\ match e with
       | LOAD_PROTOCOL patternId _ =>
           cycleCount (state k')
           = match BREATHING_PATTERNS !! patternId with
             | Some _ => 0
             | None => cycleCount (state k)
             end
       | _ =>
           cycleCount (state k) <= cycleCount (state k')
           /\ counts_ascend_since k k'
       end.
Proof.
  intros Hcycle Hthrows.
  assert (Hflat : forall f,
            (forall s, cycleCount (f s) = cycleCount s) ->
            let k' := notify (with_state f (log e k)) in
            cycleCount (state k) <= cycleCount (state k')
            /\ counts_ascend_since k k').
  { intros f Hf k'. subst k'. simpl. rewrite Hf. split; [apply Qle_refl |].
    apply counts_ascend_notify; [rewrite Hf; apply Qle_refl |].
    apply counts_ascend_log, counts_ascend_refl. }
  destruct e; try discriminate Hcycle.
  - (* BOOT *) eexists. split; [reflexivity |]. apply Hflat. reflexivity.
  - (* LOAD_PROTOCOL *)
    simpl in Hthrows.
    destruct (BREATHING_PATTERNS !! patternId0) as [pat |] eqn:E.
    + rewrite (dispatch_load_resolved _ _ _ _ pat E).
      eexists. split; reflexivity.
    + rewrite (get_not_own _ _ E) in Hthrows.
      rewrite dispatch_unknown_pattern.
      * eexists. split; reflexivity.
      * rewrite (get_not_own _ _ E).
        destruct (bool_decide _); [discriminate Hthrows | reflexivity].
  - (* START_SESSION *)
    eexists. split; [reflexivity |]. apply Hflat.
    intros s. simpl. destruct (pattern s); reflexivity.
  - (* TICK *)
    destruct (dispatch_total host (TICK dt ts) k eq_refl) as [k' Hk'].
    exists k'. split; [exact Hk' |].
    pose proof (dispatch_tick_counts _ _ _ _ _ Hk') as Ha.
    split; [| exact Ha].
    destruct Ha as (snaps & _ & Ha). revert Ha. apply ascending_last.
  - (* PHASE_TRANSITION *)
    eexists. split; [reflexivity |]. apply Hflat. reflexivity.
  - (* USER_INTERRUPTION *)
    eexists. split; [reflexivity |]. apply Hflat.
    intros s. simpl. destruct (is_running (status s)); reflexivity.
  - (* RESUME_SESSION *)
    eexists. split; [reflexivity |]. apply Hflat.
    intros s. simpl. destruct (is_paused (status s)); reflexivity.
  - (* HALT *) eexists. split; [reflexivity |]. apply Hflat. reflexivity.
  - (* SAFETY_INTERVENTION *)
    eexists. split; [reflexivity |]. apply Hflat. reflexivity.
Qed.

(** The tick that ends the fourth phase of [box] raises the count from 0 by
    way of the kernel's own CYCLE_COMPLETE. *)
Lemma count_step_witness :
  exists k',
    dispatch (foreground 6) (TICK 4 6) last_phase_box = Some k'
    /\ cycleCount (state last_phase_box) <= cycleCount (state k')
    /\ counts_ascend_since last_phase_box k'.
Proof.
  exact (count_step (foreground 6) (TICK 4 6) last_phase_box eq_refl eq_refl).
Defined.

(** ** C9: entropy is monotone *)

(** At full arousal and full alignment the code computes
    [1 * (1.0 - 1 * 0.8)], which in binary64 is the double next below 0.2,
    and not the 0.2 that 0.2 times the arousal asks for. *)
Lemma entropy_fully_aligned :
  Binary64.calculateEntropy Bounds64.aligned = Bounds64.below_a_fifth.
Proof. reflexivity. Qed.




(** ** C10: halting and locking keep the session data *)

(** C10.  For every runtime state, reducing HALT sets the status to IDLE
    and reducing SAFETY_INTERVENTION sets it to SAFETY_LOCK; pattern,
    phase, elapsed time, phase duration, cycle count, session duration and
    belief are those of the state before.  The entropy is recomputed from
    that same belief, so a state whose entropy was current changes in its
    status only. *)
Theorem halt_and_lock_frame (disp : KernelEvent -> Kernel -> option Kernel)
    (host : Host) (k : Kernel) :
  (forall reason ts, exists k',
     reduce disp host (HALT reason ts) k = Some k' /\ status_only IDLE k k')
  /\ (forall risk action ts, exists k',
     reduce disp host (SAFETY_INTERVENTION risk action ts) k = Some k'
     /\ status_only SAFETY_LOCK k k').
Proof.
  split; intros; simpl; (eexists; split; [reflexivity |]);
    unfold status_only; simpl; repeat split;
    intros Hc; apply (recalculateEntropy_id (set_status _ (state k))), Hc.
Qed.

(** * Further properties of the kernel *)

(** ** The event log and the snapshots *)


(** X2.  As long as no dispatch has thrown (a reachable kernel is one
    whose every call returned), the log of the kernel begins with the BOOT
    event of the constructor, and [notify] has run exactly once per logged
    event. *)
Theorem log_of_reachable (k : Kernel) :
  Reachable k ->
  (exists ts rest, eventLog k = BOOT ts :: rest)
  /\ length (notified k) = length (eventLog k).
Proof.
  induction 1 as [host k Hnew | c k k' Hk [(ts0 & rest & IHl) IHn] Hc].
  - unfold new, emit in Hnew. injection Hnew as <-. simpl. eauto.
  - destruct c as [host e | registry]; simpl in Hc.
    + assert (Ht : throws e = false).
      { apply (proj1 (dispatch_returns_iff host e k)). rewrite Hc. eauto. }
      destruct (dispatch_log_shape host e k Ht)
        as (k1 & follow & D & L & _ & N & _).
      rewrite D in Hc. injection Hc as <-. split.
      * rewrite L, IHl. simpl. eauto.
      * rewrite N, L, length_app, IHn. simpl. lia.
    + injection Hc as <-. simpl. eauto.
Qed.

Lemma log_of_reachable_witness :
  (exists ts rest, eventLog running_box = BOOT ts :: rest)
  /\ length (notified running_box) = 3%nat.
Proof.
  apply (log_of_reachable running_box).
  apply (run_reachable running_box_session fresh); [| vm_compute; reflexivity].
  exact (Reachable_new (foreground 0) fresh eq_refl).
Defined.

(** ** Shape of a reachable state *)

(** X3.  A reachable kernel is never in status HALTED, and whenever its
    status is RUNNING or PAUSED a pattern is loaded. *)
Theorem status_of_reachable (k : Kernel) :
  Reachable k ->
  status (state k) <> HALTED
  /\ (status (state k) = RUNNING \/ status (state k) = PAUSED ->
      is_Some (pattern (state k))).
Proof.
  intros Hk. destruct (reachable_shape k Hk) as [Hs _].
  unfold status_ok in Hs. destruct (status (state k)); split;
    try discriminate; try (intros [H | H]; discriminate H);
    try contradiction; intros _; exact Hs.
Qed.

Lemma status_of_reachable_witness :
  status (state running_box) <> HALTED
  /\ (status (state running_box) = RUNNING \/ status (state running_box) = PAUSED ->
      is_Some (pattern (state running_box))).
Proof.
  apply (status_of_reachable running_box).
  apply (run_reachable running_box_session fresh); [| vm_compute; reflexivity].
  exact (Reachable_new (foreground 0) fresh eq_refl).
Defined.

(** X4.  As long as no dispatch has thrown (a reachable kernel is one
    whose every call returned), the loaded pattern is the catalog entry
    filed under its id, its inhale time is positive, and the phase duration
    is the time that entry gives for the current phase; with no pattern
    loaded the phase duration is 0. *)
Theorem pattern_of_reachable (k : Kernel) :
  Reachable k ->
  match pattern (state k) with
  | Some pat =>
      BREATHING_PATTERNS !! id pat = Some pat
      /\ 0 < on_inhale (timings pat)
      /\ phaseDuration (state k) = timing_at (timings pat) (phase (state k))
  | None => phaseDuration (state k) = 0
  end.
Proof.
  intros Hk. destruct (reachable_shape k Hk) as [_ Hp].
  unfold pattern_ok in Hp. destruct (pattern (state k)) as [pat |]; [| exact Hp].
  destruct Hp as [Hc Hd]. split; [exact Hc |]. split; [| exact Hd].
  apply (catalog_entries _ _ Hc).
Qed.

Lemma pattern_of_reachable_witness :
  BREATHING_PATTERNS !! "box"%string = Some box
  /\ 0 < 4
  /\ phaseDuration (state running_box) = 4.
Proof.
  apply (pattern_of_reachable running_box).
  apply (run_reachable running_box_session fresh); [| vm_compute; reflexivity].
  exact (Reachable_new (foreground 0) fresh eq_refl).
Defined.

(** ** Ticks *)

(** X5.  A tick outside RUNNING (idle, paused or locked), whatever its
    delta time, logs the tick and nothing else, and leaves status, pattern,
    phase, elapsed time, phase duration, cycle count and session duration
    alone.  The belief is updated by the rule for a kernel at rest, also
    while PAUSED or with the document hidden; if it was within bounds and
    the tick runs forward, each of its components can only go down. *)
Theorem tick_at_rest (host : Host) (dt : Q) (ts : Z) (k : Kernel) :
  is_running (status (state k)) = false ->
  exists k',
    dispatch host (TICK dt ts) k = Some k'
    /\ eventLog k' = eventLog k ++ [TICK dt ts]
    /\ status (state k') = status (state k)
    /\ pattern (state k') = pattern (state k)
    /\ phase (state k') = phase (state k)
    /\ phaseElapsed (state k') = phaseElapsed (state k)
    /\ phaseDuration (state k') = phaseDuration (state k)
    /\ cycleCount (state k') = cycleCount (state k)
    /\ sessionDuration (state k') = sessionDuration (state k)
    /\ belief (state k') = update (belief (state k)) (observe host dt k) false
    /\ (belief_bounded (belief (state k)) -> 0 <= dt ->
        arousal (belief (state k')) <= arousal (belief (state k))
        /\ attention (belief (state k')) <= attention (belief (state k))
        /\ rhythm_alignment (belief (state k'))
           <= rhythm_alignment (belief (state k))).
Proof.
  intros Hr.
  destruct (tick_anatomy host dt ts k)
    as (k' & follow & D & L & _ & _ & _ & P & B & _ & St & Sd & Tr & El & Cc & Ph & Ac & _).
  unfold active in *. rewrite Hr in *. simpl in *. subst follow. simpl in *.
  destruct Ph as [Ph Du].
  exists k'. rewrite B.
  repeat (split; [assumption || reflexivity |]).
  intros Hb Hdt. apply update_idle_decays; assumption.
Qed.

(** An idle kernel, on a tick that runs forward and on one that runs
    backward by a hundred seconds. *)
Lemma tick_at_rest_witness :
  (exists k',
     dispatch (foreground 2) (TICK 0.5 2) loaded_box = Some k'
     /\ eventLog k' = eventLog loaded_box ++ [TICK 0.5 2]
     /\ status (state k') = IDLE
     /\ arousal (belief (state k')) <= 0.2)
  /\ (exists k',
     dispatch (foreground 2) (TICK (-100) 2) loaded_box = Some k'
     /\ eventLog k' = eventLog loaded_box ++ [TICK (-100) 2]
     /\ status (state k') = IDLE
     /\ sessionDuration (state k') = 0).
Proof.
  split.
  - destruct (tick_at_rest (foreground 2) 0.5 2 loaded_box eq_refl)
      as (k' & D & L & S & _ & _ & _ & _ & _ & _ & _ & A).
    exists k'. repeat split; try assumption.
    apply A; [repeat split; discriminate | discriminate].
  - destruct (tick_at_rest (foreground 2) (-100) 2 loaded_box eq_refl)
      as (k' & D & L & S & _ & _ & _ & _ & _ & Sd & _).
    exists k'. repeat split; assumption.
Defined.

(** X6.  A tick changes the status in one way only: a running session is
    put in SAFETY_LOCK, exactly when the last event the tick raised is a
    safety intervention.  Otherwise the status is the one before. *)
Theorem tick_status (host : Host) (dt : Q) (ts : Z) (k : Kernel) :
  exists k' follow,
    dispatch host (TICK dt ts) k = Some k'
    /\ eventLog k' = eventLog k ++ TICK dt ts :: follow
    /\ ((status (state k') = status (state k)
         /\ existsb is_intervention follow = false)
        \/ (status (state k) = RUNNING
            /\ status (state k') = SAFETY_LOCK
            /\ exists risk action,
                 last follow = Some (SAFETY_INTERVENTION risk action (now host)))).
Proof.
  destruct (tick_anatomy host dt ts k)
    as (k' & follow & D & L & _ & _ & _ & _ & _ & _ & St & _ & _ & _ & _ & _ & Ac & Hz).
  exists k', follow. split; [exact D |]. split; [exact L |].
  destruct (existsb is_intervention follow) eqn:Ei; [right | left; auto].
  split; [| split; [exact St | exact Hz]].
  unfold active in Ac. destruct (status (state k)); simpl in Ac;
    try (subst follow; discriminate Ei). reflexivity.
Qed.

(** X7.  SAFETY_LOCK is left only through LOAD_PROTOCOL, START_SESSION or
    HALT: any other event, ticks included, leaves the kernel locked, with
    the pattern and the session duration it had. *)
Theorem lock_holds (host : Host) (e : KernelEvent) (k : Kernel) :
  status (state k) = SAFETY_LOCK -> releases_lock e = false ->
  exists k',
    dispatch host e k = Some k'
    /\ status (state k') = SAFETY_LOCK
    /\ pattern (state k') = pattern (state k)
    /\ sessionDuration (state k') = sessionDuration (state k).
Proof.
  intros Hs He. destruct e; try discriminate He.
  - eexists. split; [reflexivity |]. simpl. auto.
  - destruct (tick_anatomy host dt ts k)
      as (k' & follow & D & _ & _ & _ & _ & P & _ & _ & St & Sd & _ & _ & _ & _ & Ac & _).
    unfold active in *. rewrite Hs in *. simpl in *. subst follow. simpl in St.
    exists k'. auto.
  - eexists. split; [reflexivity |]. simpl. auto.
  - eexists. split; [reflexivity |]. simpl. auto.
  - eexists. split; [reflexivity |]. simpl. rewrite Hs. simpl. auto.
  - eexists. split; [reflexivity |]. simpl. rewrite Hs. simpl. auto.
  - eexists. split; [reflexivity |]. simpl. auto.
Qed.

(** A kernel locked by an intervention sent from outside. *)
Lemma lock_holds_witness :
  exists k k',
    dispatch (foreground 3) (SAFETY_INTERVENTION 0.9 "HALT_PREVENTATIVE" 3) running_box
    = Some k
    /\ dispatch (foreground 4) (RESUME_SESSION 4) k = Some k'
    /\ status (state k') = SAFETY_LOCK.
Proof.
  eexists. 
  destruct (lock_holds (foreground 4) (RESUME_SESSION 4)
              (notify (with_state (fun s => recalculateEntropy (set_status SAFETY_LOCK s))
                 (log (SAFETY_INTERVENTION 0.9 "HALT_PREVENTATIVE" 3) running_box))))
    as (k' & D & S & _); [reflexivity | reflexivity |].
  exists k'. split; [reflexivity |]. split; assumption.
Defined.

(** X8.  A tick on a running session adds its delta time to the session
    duration.  If the elapsed time then reaches the phase duration, the
    phase is left through a PHASE_TRANSITION logged right after the tick
    and the elapsed time restarts from 0, the overshoot being dropped;
    otherwise the phase stays and the elapsed time has grown by the delta
    time. *)
Theorem tick_on_running (host : Host) (dt : Q) (ts : Z) (k : Kernel)
    (pat : BreathPattern) :
  status (state k) = RUNNING -> pattern (state k) = Some pat ->
  exists k' follow,
    dispatch host (TICK dt ts) k = Some k'
    /\ eventLog k' = eventLog k ++ TICK dt ts :: follow
    /\ sessionDuration (state k') = sessionDuration (state k) + dt
    /\ if Qgeb (phaseElapsed (state k) + dt) (phaseDuration (state k))
       then phaseElapsed (state k') = 0
            /\ exists rest,
                 follow = PHASE_TRANSITION (phase (state k)) (phase (state k'))
                            (now host) :: rest
       else phaseElapsed (state k') = phaseElapsed (state k) + dt
            /\ phase (state k') = phase (state k)
            /\ phaseDuration (state k') = phaseDuration (state k)
            /\ existsb is_transition follow = false.
Proof.
  intros Hs Hp.
  destruct (tick_anatomy host dt ts k)
    as (k' & follow & D & L & _ & _ & _ & _ & _ & _ & _ & Sd & Tr & El & _ & Ph & _).
  unfold active in *. rewrite Hs, Hp in *. simpl in *.
  exists k', follow. split; [exact D |]. split; [exact L |]. split; [exact Sd |].
  rewrite Tr in *.
  destruct (Qgeb _ _); [split; assumption |].
  destruct Ph as [Ph Du]. auto.
Qed.

Lemma tick_on_running_witness :
  exists k' follow,
    dispatch (foreground 3) (TICK 0.5 3) running_box = Some k'
    /\ eventLog k' = eventLog running_box ++ TICK 0.5 3 :: follow
    /\ sessionDuration (state k') = 0 + 0.5
    /\ phaseElapsed (state k') = 0 + 0.5
    /\ phase (state k') = inhale.
Proof.
  destruct (tick_on_running (foreground 3) 0.5 3 running_box box eq_refl eq_refl)
    as (k' & follow & D & L & Sd & El & Ph & _).
  exists k', follow. repeat split; assumption.
Defined.

(** X9.  When a tick on a running session does not end the phase, the
    guard decides on the entropy stored before the tick, not on the
    entropy of the belief the tick has just updated (which is stored only
    afterwards): the session is locked exactly when the trust guard matches
    on the state before the tick, or the watchdog matches on the updated
    arousal. *)
Theorem guard_reads_stored_entropy (host : Host) (dt : Q) (ts : Z) (k : Kernel)
    (pat : BreathPattern) :
  status (state k) = RUNNING -> pattern (state k) = Some pat ->
  Qgeb (phaseElapsed (state k) + dt) (phaseDuration (state k)) = false ->
  exists k',
    dispatch host (TICK dt ts) k = Some k'
    /\ (status (state k') = SAFETY_LOCK
        <-> trust_halt (state k) pat (safetyRegistry k)
            \/ hyperventilating (advanced host dt k) pat)
    /\ entropy (state k')
       = calculateEntropy (update (belief (state k)) (observe host dt k) true).
Proof.
  intros Hs Hp Hg.
  destruct (tick_anatomy host dt ts k)
    as (k' & follow & D & _ & _ & _ & _ & _ & B & En & St & _ & Tr & _ & _ & _ & Ac & Hz).
  unfold active in *. rewrite Hs, Hp, Hg in *. simpl in *. rewrite Tr in Ac.
  exists k'. split; [exact D |]. split; [| rewrite En, B; reflexivity].
  assert (Hadv : pattern (advanced host dt k) = Some pat) by exact Hp.
  pose proof (check_fires_iff (now host) (advanced host dt k) pat
                (safetyRegistry k) Hadv) as Hc.
  rewrite Ac in Hc.
  assert (Ht : trust_halt (advanced host dt k) pat (safetyRegistry k)
               <-> trust_halt (state k) pat (safetyRegistry k)) by reflexivity.
  rewrite Ht in Hc. rewrite <- Hc. rewrite St.
  destruct (existsb is_intervention follow) eqn:Ei.
  - split; [| reflexivity]. intros _.
    destruct follow as [| e l]; [discriminate Ei | simpl; eauto].
  - split; [discriminate |]. intros [e He].
    destruct follow as [| e0 l]; [discriminate He |].
    simpl in He. injection He as ->.
    destruct (HippocraticGuard.check (now host) (advanced host dt k) (safetyRegistry k))
      as [hz |] eqn:Ec; [| discriminate Ac].
    destruct (check_intervention _ _ _ _ Ec) as (risk & action & ->).
    simpl in Ac. injection Ac as <-. discriminate Ei.
Qed.

(** Two hidden ticks have raised the stored entropy of [hidden_box] to
    0.74; the third raises the entropy of the belief to 1, and yet does not
    lock the session, although the registry distrusts the pattern. *)
Lemma guard_reads_stored_entropy_witness :
  entropy (state hidden_box) == 0.74
  /\ exists k',
       dispatch (background 5) (TICK 0.9 5) hidden_box = Some k'
       /\ status (state k') <> SAFETY_LOCK
       /\ entropy (state k') == 1.
Proof.
  split; [reflexivity |].
  destruct (guard_reads_stored_entropy (background 5) 0.9 5 hidden_box box)
    as (k' & D & Hlock & En); [reflexivity | reflexivity | reflexivity |].
  exists k'. split; [exact D |]. split.
  - intros Hs. apply Hlock in Hs. destruct Hs as [(r & _ & _ & H) | (H & _)].
    + vm_compute in H. discriminate H.
    + discriminate H.
  - rewrite En. reflexivity.
Defined.

(** ** Bounds *)

(** X10.  Driven from the constructor by calls whose ticks never carry a
    negative delta time, the kernel keeps the three components of its
    belief, and its entropy, within the unit interval. *)
Theorem belief_stays_bounded (host : Host) (cs : list Call) (k0 k : Kernel) :
  new host = Some k0 -> Forall forward_call cs -> run cs k0 = Some k ->
  belief_bounded (belief (state k)) /\ unit_interval (entropy (state k)).
Proof.
  intros Hnew Hcs Hrun.
  assert (Hb : belief_bounded (belief (state k))).
  { assert (H0 : belief_bounded (belief (state k0))).
    { unfold new, emit in Hnew. injection Hnew as <-.
      repeat split; discriminate. }
    clear Hnew. revert k0 H0 Hrun.
    induction Hcs as [| c cs Hc _ IH]; intros k0 H0; simpl.
    - intros [= <-]. exact H0.
    - destruct (call c k0) as [k1 |] eqn:E; simpl; [| discriminate].
      apply IH. destruct c as [h e | registry]; simpl in E.
      + eapply dispatch_keeps_bounds; eauto.
      + injection E as <-. exact H0. }
  split; [exact Hb |].
  assert (Hr : Reachable k).
  { eapply run_reachable; [| exact Hrun]. eapply Reachable_new, Hnew. }
  destruct (reachable_current k Hr) as [Hc _]. rewrite Hc.
  apply calculateEntropy_unit.
Qed.

Lemma belief_stays_bounded_witness :
  belief_bounded (belief (state hidden_box))
  /\ unit_interval (entropy (state hidden_box)).
Proof.
  apply (belief_stays_bounded (foreground 0) hidden_box_session fresh hidden_box).
  - reflexivity.
  - repeat constructor; discriminate.
  - vm_compute. reflexivity.
Defined.

(** ** Pause and resume *)

(** X11.  RESUME_SESSION changes nothing unless the status is PAUSED.
    Pausing a running session and resuming it gives a running session
    again with the same pattern, phase, elapsed time, phase duration,
    cycle count and session duration; the penalty of the pause stays:
    attention is 0.8 and rhythm alignment 0.5 of what they were. *)
Theorem pause_then_resume (host host' : Host) (kind : InterruptionKind) (ts ts' : Z)
    (k : Kernel) :
  Reachable k ->
  (status (state k) <> PAUSED ->
   exists k', dispatch host (RESUME_SESSION ts) k = Some k' /\ state k' = state k)
  /\ (status (state k) = RUNNING ->
      exists k1 k2,
        dispatch host (USER_INTERRUPTION kind ts) k = Some k1
        /\ dispatch host' (RESUME_SESSION ts') k1 = Some k2
        /\ status (state k2) = RUNNING
        /\ pattern (state k2) = pattern (state k)
        /\ phase (state k2) = phase (state k)
        /\ phaseElapsed (state k2) = phaseElapsed (state k)
        /\ phaseDuration (state k2) = phaseDuration (state k)
        /\ cycleCount (state k2) = cycleCount (state k)
        /\ sessionDuration (state k2) = sessionDuration (state k)
        /\ arousal (belief (state k2)) = arousal (belief (state k))
        /\ attention (belief (state k2)) = attention (belief (state k)) * 0.8
        /\ rhythm_alignment (belief (state k2))
           = rhythm_alignment (belief (state k)) * 0.5).
Proof.
  intros Hk. apply reachable_current in Hk as [Hc _]. split.
  - intros Hs. rewrite dispatch_resume. eexists. split; [reflexivity |]. simpl.
    destruct (status (state k)); simpl; try contradiction;
      apply recalculateEntropy_id, Hc.
  - intros Hs. rewrite dispatch_interruption. eexists. eexists.
    split; [reflexivity |]. rewrite dispatch_resume. split; [reflexivity |].
    simpl. rewrite Hs. simpl. repeat split; reflexivity.
Qed.

Lemma pause_then_resume_witness :
  exists k1 k2,
    dispatch (foreground 3) (USER_INTERRUPTION kind_pause 3) running_box = Some k1
    /\ dispatch (foreground 4) (RESUME_SESSION 4) k1 = Some k2
    /\ status (state k2) = RUNNING
    /\ attention (belief (state k2)) = 0.5 * 0.8.
Proof.
  destruct (pause_then_resume (foreground 3) (foreground 4) kind_pause 3 4 running_box)
    as [_ H].
  - apply (run_reachable running_box_session fresh); [| vm_compute; reflexivity].
    exact (Reachable_new (foreground 0) fresh eq_refl).
  - destruct (H eq_refl) as (k1 & k2 & D1 & D2 & S & _ & _ & _ & _ & _ & _ & _ & A & _).
    exists k1, k2. repeat split; assumption.
Defined.

(** * Properties of the engine bridge *)

(** X12.  The effect that starts a session on a pattern of the catalog
    leaves the kernel RUNNING on that pattern from a clean slate, whatever
    its status was before (SAFETY_LOCK included): phase inhale, no elapsed
    time, the inhale time of the pattern (which is positive) as phase
    duration, cycle count and session duration 0, rhythm alignment 0,
    arousal and attention as they were.  It logs LOAD_PROTOCOL and
    START_SESSION and nothing else. *)
Theorem session_starts_clean (host host' : Host) (patternId : string)
    (pat : BreathPattern) (k : Kernel) :
  BREATHING_PATTERNS !! patternId = Some pat ->
  exists k',
    BreathEngine.sessionEffect host host' true patternId k = Some k'
    /\ eventLog k'
       = eventLog k ++ [LOAD_PROTOCOL patternId (now host); START_SESSION (now host')]
    /\ status (state k') = RUNNING
    /\ pattern (state k') = Some pat
    /\ phase (state k') = inhale
    /\ phaseElapsed (state k') = 0
    /\ phaseDuration (state k') = on_inhale (timings pat)
    /\ 0 < phaseDuration (state k')
    /\ cycleCount (state k') = 0
    /\ sessionDuration (state k') = 0
    /\ arousal (belief (state k')) = arousal (belief (state k))
    /\ attention (belief (state k')) = attention (belief (state k))
    /\ rhythm_alignment (belief (state k')) = 0.0.
Proof.
  intros Hc. unfold BreathEngine.sessionEffect.
  rewrite (dispatch_load_resolved _ _ _ _ pat Hc).
  change (Some ?x ≫= ?f) with (f x). rewrite dispatch_start.
  eexists. split; [reflexivity |]. simpl. rewrite <- app_assoc. simpl.
  repeat split; try reflexivity.
  apply (catalog_entries _ _ Hc).
Qed.

(** Even out of a lock: [box] starts afresh. *)
Lemma session_starts_clean_witness :
  exists k k',
    dispatch (foreground 3) (SAFETY_INTERVENTION 0.9 "HALT_PREVENTATIVE" 3) running_box
    = Some k
    /\ status (state k) = SAFETY_LOCK
    /\ BreathEngine.sessionEffect (foreground 4) (foreground 5) true "box" k = Some k'
    /\ status (state k') = RUNNING
    /\ cycleCount (state k') = 0.
Proof.
  eexists.
  destruct (session_starts_clean (foreground 4) (foreground 5) "box" box
              (notify (with_state (fun s => recalculateEntropy (set_status SAFETY_LOCK s))
                 (log (SAFETY_INTERVENTION 0.9 "HALT_PREVENTATIVE" 3) running_box))))
    as (k' & D & _ & S & _ & _ & _ & _ & _ & C & _); [vm_compute; reflexivity |].
  exists k'. split; [reflexivity |]. split; [reflexivity |]. repeat split; assumption.
Defined.

(** X13.  Driven from the constructor through the hook alone (its two
    command effects and its heartbeat), the kernel never logs a tick whose
    delta time is not strictly between 0 and 1 second: frames that come
    late, or not after the last one, are dropped.  Its belief stays within
    the unit interval and its trust registry stays empty. *)
Theorem hook_drives_in_range (host : Host) (cs : list HookCall) (lastTimeRef : Q)
    (k0 : Kernel) (st : Q * Kernel) :
  new host = Some k0 -> hook_run cs (lastTimeRef, k0) = Some st ->
  Forall tick_in_range (eventLog (snd st))
  /\ belief_bounded (belief (state (snd st)))
  /\ safetyRegistry (snd st) = ∅.
Proof.
  intros Hnew.
  set (st0 := (lastTimeRef, k0)).
  assert (H0 : Forall tick_in_range (eventLog (snd st0))
               /\ belief_bounded (belief (state (snd st0)))
               /\ safetyRegistry (snd st0) = ∅).
  { unfold new, emit in Hnew. injection Hnew as <-. simpl.
    split; [repeat constructor |]. split; [repeat split; discriminate | reflexivity]. }
  clearbody st0. clear Hnew. revert st0 H0.
  induction cs as [| c cs IH]; intros st0 H0.
  - intros [= <-]. exact H0.
  - change (hook_run (c :: cs) st0) with (st1 ← hook_call c st0; hook_run cs st1).
    destruct (hook_call c st0) as [st1 |] eqn:E; [| discriminate].
    change (Some st1 ≫= hook_run cs) with (hook_run cs st1).
    apply IH.
    destruct (hook_call_as_run c st0 st1 E) as (kc & Hrun & Hkc).
    destruct (run_in_range kc _ _ Hkc Hrun) as (Hl & Hb & Hr).
    destruct H0 as (H1 & H2 & H3).
    split; [auto |]. split; [auto |]. rewrite Hr. exact H3.
Qed.

Lemma hook_drives_in_range_witness :
  exists st,
    hook_run [SessionEffect (foreground 1) (foreground 1) true "box";
              Loop (foreground 2) 1016; Loop (foreground 3) 5000;
              Loop (foreground 4) 5016] (1000, fresh) = Some st
    /\ eventLog (snd st)
       = [BOOT 0; LOAD_PROTOCOL "box" 1; START_SESSION 1;
          TICK ((1016 - 1000) / 1000) 2; TICK ((5016 - 5000) / 1000) 4]
    /\ Forall tick_in_range (eventLog (snd st)).
Proof.
  eexists. split; [vm_compute; reflexivity |]. split; [reflexivity |].
  apply (hook_drives_in_range (foreground 0)
           [SessionEffect (foreground 1) (foreground 1) true "box";
            Loop (foreground 2) 1016; Loop (foreground 3) 5000;
            Loop (foreground 4) 5016] 1000 fresh).
  - reflexivity.
  - vm_compute. reflexivity.
Defined.


(** * Properties of the settings store *)



(** X17.  Starting from the store's initial state, the trust guard can
    match on a pattern only after at least three sessions of that pattern
    were registered as adverse. *)
Theorem halt_needs_three_adverse (sessions : list Session) (s : RuntimeState)
    (pat : BreathPattern) :
  trust_halt s pat (registry_of (registerAll sessions SettingsStore.initialState)) ->
  exists record,
    registry_of (registerAll sessions SettingsStore.initialState) !! id pat
    = Some record
    /\ 3 <= adverse_events record.
Proof.
  intros (record & Hr & Hscore & _). exists record. split; [exact Hr |].
  destruct (registerAll_records_ok sessions _ initial_records_ok _ _ Hr)
    as (_ & _ & (n & Hn) & Hlow).
  rewrite Hn in *.
  assert (Hn2 : 2 < inject_Z (Z.of_nat n)) by lra.
  change 2 with (inject_Z 2) in Hn2. rewrite <- Zlt_Qlt in Hn2.
  change 3 with (inject_Z 3). rewrite <- Zle_Qle. lia.
Qed.

(** Three short sessions of [box] bring its score from 0.5 to 0.2. *)
Lemma halt_needs_three_adverse_witness :
  exists record,
    registry_of (registerAll [short_session; short_session; short_session]
                   SettingsStore.initialState) !! "box"%string
    = Some record
    /\ 3 <= adverse_events record.
Proof.
  apply (halt_needs_three_adverse [short_session; short_session; short_session]
           distressed_box box).
  eexists. split; [vm_compute; reflexivity |]. split; reflexivity.
Defined.

(** X18.  The history never holds more than a hundred items: from a
    history within that bound, a series of sessions adds one item for each
    session longer than 10 seconds, capped at one hundred, and nothing for
    the others. *)
Theorem history_length (sessions : list Session) (st : SettingsStore.SettingsState) :
  (length (SettingsStore.history st) <= 100)%nat ->
  length (SettingsStore.history (registerAll sessions st))
  = Nat.min 100 (length (SettingsStore.history st)
                 + length (List.filter recorded sessions)).
Proof. apply registerAll_history_length. Qed.

Lemma history_length_witness :
  length (SettingsStore.history
            (registerAll [short_session; calm_session] SettingsStore.initialState))
  = 2%nat.
Proof.
  apply (history_length [short_session; calm_session] SettingsStore.initialState).
  simpl. lia.
Defined.

(** X19.  A day counts once for the streak: after a session of more than
    30 seconds the last breath date is today's, and a further session
    registered on the same day, whatever its length, changes neither the
    streak nor that date.  A session of 30 seconds or less never touches
    them. *)
Theorem day_counts_once (s1 s2 : Session) (st : SettingsStore.SettingsState) :
  SettingsStore.getTodayString (s_env s2) = SettingsStore.getTodayString (s_env s1) ->
  let u0 := SettingsStore.userSettings st in
  let u1 := SettingsStore.userSettings (register s1 st) in
  let u2 := SettingsStore.userSettings (register s2 (register s1 st)) in
  if Qgtb (s_durationSec s1) 30
  then SettingsStore.lastBreathDate u1 = SettingsStore.getTodayString (s_env s1)
       /\ SettingsStore.streak u2 = SettingsStore.streak u1
       /\ SettingsStore.lastBreathDate u2 = SettingsStore.lastBreathDate u1
  else SettingsStore.streak u1 = SettingsStore.streak u0
       /\ SettingsStore.lastBreathDate u1 = SettingsStore.lastBreathDate u0.
Proof.
  intros Hday u0 u1 u2. subst u0 u1 u2. unfold register.
  pose proof (register_streak (s_env s1) (s_durationSec s1) (s_patternId s1)
                (s_cycles s1) st (s_kernel s1)) as H1.
  cbv zeta in H1.
  destruct (Qgtb (s_durationSec s1) 30).
  - set (st1 := fst (SettingsStore.registerSessionComplete (s_env s1) _ _ _ st _)) in *.
    assert (Hd : SettingsStore.lastBreathDate (SettingsStore.userSettings st1)
                 = SettingsStore.getTodayString (s_env s1)).
    { destruct (String.eqb _ _) eqn:E1 in H1.
      - apply String.eqb_eq in E1. injection H1 as _ ->. exact E1.
      - destruct (String.eqb _ _) in H1; injection H1 as _ ->; reflexivity. }
    split; [exact Hd |].
    pose proof (register_streak (s_env s2) (s_durationSec s2) (s_patternId s2)
                  (s_cycles s2) st1 (s_kernel s2)) as H2.
    cbv zeta in H2. rewrite Hd, Hday, String.eqb_refl in H2.
    destruct (Qgtb (s_durationSec s2) 30); injection H2 as -> ->;
      split; congruence.
  - injection H1 as -> ->. split; reflexivity.
Qed.

Lemma day_counts_once_witness :
  SettingsStore.lastBreathDate
    (SettingsStore.userSettings (register calm_session SettingsStore.initialState))
  = "2026-11-01"%string
  /\ SettingsStore.streak
       (SettingsStore.userSettings
          (register calm_session (register calm_session SettingsStore.initialState)))
     = SettingsStore.streak
         (SettingsStore.userSettings (register calm_session SettingsStore.initialState)).
Proof.
  destruct (day_counts_once calm_session calm_session SettingsStore.initialState eq_refl)
    as (H1 & H2 & _).
  split; [exact H1 | exact H2].
Defined.

(** X20.  The date string tells calendar days apart: two dates within the
    ranges of the getters (a year of our era, a month from 0 to 11, a day
    from 1 to 31) that give the same string are the same date. *)
Theorem dateString_inj (d1 d2 : SettingsStore.LocalDate) :
  valid_date d1 -> valid_date d2 ->
  SettingsStore.dateString d1 = SettingsStore.dateString d2 ->
  d1 = d2.
Proof.
  intros (Hy1 & Hm1 & Hd1) (Hy2 & Hm2 & Hd2) H.
  destruct d1 as [y1 m1 day1], d2 as [y2 m2 day2].
  unfold SettingsStore.dateString in H.
  cbn [SettingsStore.fullYear SettingsStore.month SettingsStore.date] in *.
  apply split_at_dash in H as [Hy H]; [| apply pretty_Z_no_dash; lia ..].
  apply split_at_dash in H as [Hm Hd];
    [| apply padStart2_no_dash, pretty_Z_no_dash; lia ..].
  apply (inj pretty) in Hy.
  apply (f_equal two_digits) in Hm, Hd.
  rewrite !two_digits_padStart2 in Hm, Hd by lia.
  injection Hm as Hm. injection Hd as Hd.
  f_equal; lia.
Qed.

Lemma dateString_inj_witness :
  SettingsStore.today sample_env = SettingsStore.today sample_env.
Proof.
  apply (dateString_inj (SettingsStore.today sample_env)
           (SettingsStore.today sample_env)).
  - unfold valid_date. simpl. lia.
  - unfold valid_date. simpl. lia.
  - reflexivity.
Defined.

(** X21.  Starting from the store's initial state, after any series of
    registered sessions the streak is a natural number, never more than
    the number of sessions longer than 30 seconds, and it is zero exactly
    as long as no breath date is stored. *)
Theorem streak_of_sessions (sessions : list Session) :
  streak_ok (length (List.filter counted sessions))
    (registerAll sessions SettingsStore.initialState).
Proof.
  apply (registerAll_streak_ok sessions SettingsStore.initialState 0).
  exists 0%nat. split; [reflexivity |]. split; [lia |]. split; reflexivity.
Qed.

(** * Properties of the pattern lock *)

(** X22.  Starting from the store's initial state, what unlocks a pattern
    is the number of registered sessions longer than 10 seconds, whatever
    their pattern and outcome: a tier-1 pattern is never locked, a tier-2
    pattern is locked below three such sessions and a tier-3 pattern below
    ten. *)
Theorem lock_counts_recorded (sessions : list Session)
    (st : SettingsStore.SettingsState) (p : BreathPattern) :
  SettingsStore.history st = [] ->
  Footer.isPatternLocked (SettingsStore.history (registerAll sessions st)) p
  = match tier p with
    | Tier1 => false
    | Tier2 => Nat.ltb (length (List.filter recorded sessions)) 3
    | Tier3 => Nat.ltb (length (List.filter recorded sessions)) 10
    end.
Proof.
  intros Hst. unfold Footer.isPatternLocked.
  rewrite registerAll_history_length by (rewrite Hst; cbn; lia).
  rewrite Hst. cbn [length Nat.add].
  set (n := length (List.filter recorded sessions)).
  destruct (tier p); [reflexivity | |].
  - destruct (Nat.ltb_spec n 3), (Nat.ltb_spec (Nat.min 100 n) 3);
      first [reflexivity | lia].
  - destruct (Nat.ltb_spec n 10), (Nat.ltb_spec (Nat.min 100 n) 10);
      first [reflexivity | lia].
Qed.

(** Two sessions leave the tier-2 pattern [coherence] locked. *)
Lemma lock_counts_recorded_witness :
  Footer.isPatternLocked
    (SettingsStore.history
       (registerAll [short_session; calm_session] SettingsStore.initialState))
    coherence
  = true.
Proof.
  apply (lock_counts_recorded [short_session; calm_session]
           SettingsStore.initialState coherence).
  reflexivity.
Defined.

(** X23.  Registering sessions never locks a pattern again: a pattern that
    is unlocked stays unlocked after any series of registered sessions,
    also once the history is cut at a hundred items. *)
Theorem lock_never_returns (sessions : list Session)
    (st : SettingsStore.SettingsState) (p : BreathPattern) :
  Footer.isPatternLocked (SettingsStore.history st) p = false ->
  Footer.isPatternLocked (SettingsStore.history (registerAll sessions st)) p = false.
Proof.
  revert st. induction sessions as [| s rest IH]; intros st Hst; [exact Hst |].
  cbn [registerAll]. apply IH.
  apply (isPatternLocked_mono (SettingsStore.history st)); [| exact Hst].
  rewrite register_history_length. destruct (recorded s); lia.
Qed.

Lemma lock_never_returns_witness :
  Footer.isPatternLocked
    (SettingsStore.history
       (registerAll [short_session]
          (registerAll ten_sessions SettingsStore.initialState)))
    coherence
  = false.
Proof.
  apply (lock_never_returns [short_session]
           (registerAll ten_sessions SettingsStore.initialState) coherence).
  vm_compute. reflexivity.
Defined.

(** X24.  What the kernel is given when the saved store is loaded is the
    registry it held when the last session was registered, so its guard
    answers alike; nothing else of the kernel is touched, and without a
    saved store the kernel is left as it is. *)
Theorem rehydrate_restores_registry (env : SettingsStore.Env) (durationSec : Q)
    (patternId : string) (cycles : Q) (st : SettingsStore.SettingsState)
    (k k0 : Kernel) (now : Z) (s : RuntimeState) :
  let saved := fst (SettingsStore.registerSessionComplete env durationSec patternId
                      cycles st k) in
  let k' := snd (SettingsStore.registerSessionComplete env durationSec patternId
                   cycles st k) in
  let loaded := SettingsStore.onRehydrateStorage (Some saved) k0 in
  safetyRegistry loaded = safetyRegistry k'
  /\ HippocraticGuard.check now s (safetyRegistry loaded)
     = HippocraticGuard.check now s (safetyRegistry k')
  /\ state loaded = state k0
  /\ eventLog loaded = eventLog k0
  /\ notified loaded = notified k0
  /\ SettingsStore.onRehydrateStorage None k0 = k0.
Proof.
  intros saved k' loaded. subst saved k' loaded.
  rewrite register_kernel.
  cbn [SettingsStore.onRehydrateStorage ZenBKernel.setSafetyRegistry
       safetyRegistry state eventLog notified].
  rewrite register_registry.
  repeat split; reflexivity.
Qed.
